(** * Prompt token estimation (pkg/agents/chatcompletion/tokens.go)

    A shallow embedding of [countPromptTokens] and [toTokenRequest], together
    with the properties the specification states about them.

    Conventions of the embedding:
    - Go's [int] is taken at 64 bits: a value is a [Z], and every addition the
      source performs is wrapped back into the signed 64-bit range by
      [wrapInt];
    - a Go [(T, error)] result of a library call is a sum [T + error]; the
      [(int, error)] result of [countPromptTokens] is kept as a pair, so that
      the count returned next to an error can be observed;
    - the recursion of [countPromptTokens] is indexed by a call-depth budget
      [fuel]; [None] means the budget ran out before the call returned;
    - the tokenizer package and [encoding/json] are libraries the source
      calls: the first is an interface ([TiktokenLib]), the second is modelled
      on JSON values ([Value]) with the decoding rules of [json.Unmarshal]. *)

From Stdlib Require Import ZArith String Ascii List Bool Lia.
From Stdlib Require Import Permutation.
Import ListNotations.

Set Warnings "-register-all".

Open Scope string_scope.
Open Scope Z_scope.

(* ================================================================= *)
(** ** Machine integers *)

Module Int.

Definition minInt : Z := - 2 ^ 63.
Definition maxInt : Z := 2 ^ 63 - 1.

(** Two's complement wrap-around of a mathematical integer. *)
Definition wrapInt (z : Z) : Z := (z + 2 ^ 63) mod 2 ^ 64 - 2 ^ 63.

(** [a + b] on Go's [int]. *)
Definition add (a b : Z) : Z := wrapInt (a + b).

Definition inRange (z : Z) : Prop := minInt <= z <= maxInt.

End Int.

(* ================================================================= *)
(** ** Errors *)

(** The error values the function can return.  [Error] renders the message
    the source builds with [fmt.Errorf]; [%w] keeps the cause. *)
Inductive error : Type :=
| ErrNilRequest
| ErrEncoding (model : string) (cause : error)
| ErrUnknownModel (model : string)
| ErrConvert (cause : error)
| ErrLibrary (msg : string).

Fixpoint Error (e : error) : string :=
  match e with
  | ErrNilRequest => "nil request, can't count tokens"
  | ErrEncoding model cause =>
      "failed to get encoding for model " ++ model ++ ": " ++ Error cause
  | ErrUnknownModel model =>
      "token counting method for model " ++ model ++ " is unknown"
  | ErrConvert cause =>
      "failed to convert chat completion request to token counting request: "
        ++ Error cause
  | ErrLibrary msg => msg
  end.

(** The taxonomy of the design document. *)
Inductive ErrorKind : Type :=
| InvalidInput
| TokenizerUnavailable
| UnsupportedModel
| NormalizationFailure.

Definition kindOf (e : error) : option ErrorKind :=
  match e with
  | ErrNilRequest => Some InvalidInput
  | ErrEncoding _ _ => Some TokenizerUnavailable
  | ErrUnknownModel _ => Some UnsupportedModel
  | ErrConvert _ => Some NormalizationFailure
  | ErrLibrary _ => None
  end.

(* ================================================================= *)
(** ** The libraries the source calls *)

(** [github.com/pkoukk/tiktoken-go]: [EncodingForModel] hands out a tokenizer
    for a model name or fails; [Encode tkm s] is [tkm.Encode(s, nil, nil)]. *)
Class TiktokenLib : Type := {
  Tiktoken : Type;
  EncodingForModel : string -> Tiktoken + error;
  Encode : Tiktoken -> string -> list Z
}.

(** [strings.HasPrefix] and [strings.Contains]: byte-wise, case-sensitive. *)
Definition HasPrefix (s prefix : string) : bool := String.prefix prefix s.

Fixpoint Contains (s substr : string) : bool :=
  HasPrefix s substr
  || match s with
     | EmptyString => false
     | String _ rest => Contains rest substr
     end.

(** *** JSON values

    [json.Marshal] followed by [json.Unmarshal] is modelled on the value the
    bytes denote. *)
Inductive Value : Type :=
| Null
| Bool (b : bool)
| Number (literal : string)
| Str (s : string)
| Array (elems : list Value)
| Object (members : list (string * Value)).

(** [json.Marshal] at a Go type. *)
Class Marshaler (A : Type) : Type := Marshal : A -> Value + error.

(** *** Strings under [json.Marshal]

    [json.Marshal] writes a Go string as valid UTF-8: it decodes the string
    rune by rune and writes U+FFFD in place of every byte at which no valid
    UTF-8 sequence starts; [json.Unmarshal] reads the result back as it is.
    [runeSize] is the width [utf8.DecodeRuneInString] reports for the rune at
    the head of the string, with 0 standing for an invalid byte (RuneError of
    width 1). *)
Definition byteIn (lo hi : nat) (c : ascii) : bool :=
  ((lo <=? nat_of_ascii c) && (nat_of_ascii c <=? hi))%nat.

Definition runeSize (s : string) : nat :=
  match s with
  | EmptyString => 0%nat
  | String b0 rest =>
      let n := nat_of_ascii b0 in
      if (n <? 128)%nat then 1%nat
      else if byteIn 194 223 b0 then
        match rest with
        | String b1 _ => if byteIn 128 191 b1 then 2%nat else 0%nat
        | _ => 0%nat
        end
      else if byteIn 224 239 b0 then
        let lo := if (n =? 224)%nat then 160%nat else 128%nat in
        let hi := if (n =? 237)%nat then 159%nat else 191%nat in
        match rest with
        | String b1 (String b2 _) =>
            if byteIn lo hi b1 && byteIn 128 191 b2 then 3%nat else 0%nat
        | _ => 0%nat
        end
      else if byteIn 240 244 b0 then
        let lo := if (n =? 240)%nat then 144%nat else 128%nat in
        let hi := if (n =? 244)%nat then 143%nat else 191%nat in
        match rest with
        | String b1 (String b2 (String b3 _)) =>
            if byteIn lo hi b1 && byteIn 128 191 b2 && byteIn 128 191 b3
            then 4%nat else 0%nat
        | _ => 0%nat
        end
      else 0%nat
  end.

(** U+FFFD in UTF-8: the bytes EF BF BD. *)
Definition replacementChar : string :=
  String (ascii_of_nat 239)
    (String (ascii_of_nat 191) (String (ascii_of_nat 189) EmptyString)).

(** [skip] counts the bytes still to copy of a rune already found valid. *)
Fixpoint coerceFrom (skip : nat) (s : string) : string :=
  match s with
  | EmptyString => EmptyString
  | String c rest =>
      match skip with
      | S more => String c (coerceFrom more rest)
      | O =>
          match runeSize s with
          | O => replacementChar ++ coerceFrom 0 rest
          | S more => String c (coerceFrom more rest)
          end
      end
  end.

(** The string [json.Marshal] writes for [s]. *)
Definition coerceUTF8 (s : string) : string := coerceFrom 0 s.

(** [utf8.ValidString]. *)
Fixpoint validFrom (skip : nat) (s : string) : bool :=
  match s with
  | EmptyString => true
  | String c rest =>
      match skip with
      | S more => validFrom more rest
      | O =>
          match runeSize s with
          | O => false
          | S more => validFrom more rest
          end
      end
  end.

Definition ValidString (s : string) : bool := validFrom 0 s.

(** Key folding of [encoding/json] (foldName): ASCII letters go to upper
    case; the two runes whose simple case folding reaches an ASCII letter,
    U+017F (bytes C5 BF) and U+212A (bytes E2 84 AA), go to S and K.  No
    other rune folds to an ASCII character, so every other byte is kept. *)
Definition upperAscii (c : ascii) : ascii :=
  let n := nat_of_ascii c in
  if (97 <=? n)%nat && (n <=? 122)%nat then ascii_of_nat (n - 32) else c.

Fixpoint foldName (s : string) : string :=
  match s with
  | EmptyString => EmptyString
  | String c1 rest1 =>
      match nat_of_ascii c1, rest1 with
      | 197%nat, String c2 rest2 =>
          if (nat_of_ascii c2 =? 191)%nat then String "S" (foldName rest2)
          else String c1 (foldName rest1)
      | 226%nat, String c2 (String c3 rest3) =>
          if (nat_of_ascii c2 =? 132)%nat && (nat_of_ascii c3 =? 170)%nat
          then String "K" (foldName rest3)
          else String c1 (foldName rest1)
      | _, _ => String (upperAscii c1) (foldName rest1)
      end
  end.

(** A JSON key selects the struct field with tag [tag] when the two names are
    equal, or equal after folding. *)
Definition keyMatches (key tag : string) : bool :=
  String.eqb key tag || String.eqb (foldName key) (foldName tag).

(** Sequencing of fallible steps. *)
Definition bind {A B : Type} (r : A + error) (k : A -> B + error) : B + error :=
  match r with
  | inl a => k a
  | inr e => inr e
  end.

Notation "x <- r ;; k" := (bind r (fun x => k))
  (at level 61, r at next level, right associativity).

(* ================================================================= *)
(** ** Data of the source file *)

Record fixedTokenCost : Type := {
  message : Z;
  name : Z;
  tools : Z;
  toolParameters : Z;
  toolParameterPropertyType : Z;
  toolParameterPropertyDescription : Z;
  toolParameterPropertyEnum : Z;
  toolParameterPropertyEnumElement : Z
}.

Record tokenMessage : Type := {
  Name : string;
  Role : string;
  Content : string
}.

Record tokenRequest : Type := {
  Messages : list tokenMessage
}.

(** Go's zero values. *)
Definition zeroTokenMessage : tokenMessage :=
  {| Name := ""; Role := ""; Content := "" |}.

Definition zeroTokenRequest : tokenRequest := {| Messages := [] |}.

(* ================================================================= *)
(** ** [json.Unmarshal] into [tokenRequest]

    The rules of [encoding/json]: [null] leaves the destination as it is (a
    slice becomes nil); a JSON value of the wrong kind is an
    UnmarshalTypeError, and the first one is the error [Unmarshal] returns; an
    object is read member by member, a member whose key selects no field is
    skipped, a later member overwrites what an earlier one set; an array
    replaces the slice, one fresh element per array element (the documented
    rule; none of the results below is about a document in which two members
    select the same field).  The message of the type error is abbreviated. *)

Definition kindName (v : Value) : string :=
  match v with
  | Null => "null"
  | Bool _ => "bool"
  | Number _ => "number"
  | Str _ => "string"
  | Array _ => "array"
  | Object _ => "object"
  end.

Definition UnmarshalTypeError (v : Value) (goType : string) : error :=
  ErrLibrary ("json: cannot unmarshal " ++ kindName v
                ++ " into Go value of type " ++ goType).

Definition unmarshalString (v : Value) (old : string) : string + error :=
  match v with
  | Null => inl old
  | Str s => inl s
  | _ => inr (UnmarshalTypeError v "string")
  end.

Fixpoint unmarshalMembers {T : Type} (field : string -> Value -> T -> T + error)
    (members : list (string * Value)) (dst : T) : T + error :=
  match members with
  | [] => inl dst
  | (key, v) :: rest =>
      dst' <- field key v dst ;; unmarshalMembers field rest dst'
  end.

Definition tokenMessageField (key : string) (v : Value) (msg : tokenMessage)
    : tokenMessage + error :=
  if keyMatches key "name" then
    s <- unmarshalString v (Name msg) ;;
    inl {| Name := s; Role := Role msg; Content := Content msg |}
  else if keyMatches key "role" then
    s <- unmarshalString v (Role msg) ;;
    inl {| Name := Name msg; Role := s; Content := Content msg |}
  else if keyMatches key "content" then
    s <- unmarshalString v (Content msg) ;;
    inl {| Name := Name msg; Role := Role msg; Content := s |}
  else inl msg.

Definition unmarshalTokenMessage (v : Value) (old : tokenMessage)
    : tokenMessage + error :=
  match v with
  | Null => inl old
  | Object members => unmarshalMembers tokenMessageField members old
  | _ => inr (UnmarshalTypeError v "chatcompletion.tokenMessage")
  end.

Fixpoint unmarshalElems (elems : list Value) : list tokenMessage + error :=
  match elems with
  | [] => inl []
  | v :: rest =>
      msg <- unmarshalTokenMessage v zeroTokenMessage ;;
      msgs <- unmarshalElems rest ;;
      inl (msg :: msgs)
  end.

Definition unmarshalTokenMessages (v : Value) (old : list tokenMessage)
    : list tokenMessage + error :=
  match v with
  | Null => inl []
  | Array elems => unmarshalElems elems
  | _ => inr (UnmarshalTypeError v "[]chatcompletion.tokenMessage")
  end.

Definition tokenRequestField (key : string) (v : Value) (to : tokenRequest)
    : tokenRequest + error :=
  if keyMatches key "messages" then
    msgs <- unmarshalTokenMessages v (Messages to) ;;
    inl {| Messages := msgs |}
  else inl to.

(** [json.Unmarshal(data, &to)] for a zero-valued [to]. *)
Definition Unmarshal (data : Value) : tokenRequest + error :=
  match data with
  | Null => inl zeroTokenRequest
  | Object members => unmarshalMembers tokenRequestField members zeroTokenRequest
  | _ => inr (UnmarshalTypeError data "chatcompletion.tokenRequest")
  end.

(* ================================================================= *)
(** ** The functions of the source file *)

Section Estimator.

Context {lib : TiktokenLib}.
Context {Request : Type} {marshaler : Marshaler Request}.

(** [from] is a pointer: [None] is nil, which [json.Marshal] writes as
    [null]. *)
Definition toTokenRequest (from : option Request) : tokenRequest + error :=
  match (match from with
         | None => inl Null
         | Some r => Marshal r
         end) with
  | inr err => inr err
  | inl data =>
      match Unmarshal data with
      | inr err => inr err
      | inl to => inl to
      end
  end.

(** The closure [count] of the source; the length of a slice is within
    [int]. *)
Definition count (tkm : Tiktoken) (s : string) : Z :=
  Z.of_nat (List.length (Encode tkm s)).

(** One iteration of the loop over [req.Messages]. *)
Definition addMessage (tkm : Tiktoken) (fixedCost : fixedTokenCost)
    (tokens : Z) (msg : tokenMessage) : Z :=
  let tokens := Int.add tokens (message fixedCost) in
  let tokens :=
    fold_left (fun tokens s => Int.add tokens (count tkm s))
              [Content msg; Role msg; Name msg] tokens in
  if String.eqb (Name msg) "" then tokens
  else Int.add tokens (name fixedCost).

Definition withMessageName (fixedCost : fixedTokenCost) (m n : Z)
    : fixedTokenCost :=
  {| message := m;
     name := n;
     tools := tools fixedCost;
     toolParameters := toolParameters fixedCost;
     toolParameterPropertyType := toolParameterPropertyType fixedCost;
     toolParameterPropertyDescription :=
       toolParameterPropertyDescription fixedCost;
     toolParameterPropertyEnum := toolParameterPropertyEnum fixedCost;
     toolParameterPropertyEnumElement :=
       toolParameterPropertyEnumElement fixedCost |}.

(** The literal the source starts from; [message] and [name] are left at
    Go's zero value. *)
Definition initialFixedCost : fixedTokenCost :=
  {| message := 0;
     name := 0;
     tools := 12;
     toolParameters := 11;
     toolParameterPropertyType := 2;
     toolParameterPropertyDescription := 2;
     toolParameterPropertyEnum := -3;
     toolParameterPropertyEnumElement := 3 |}.

(** The model names of the first and of the second [case]. *)
Definition case0613 : list string :=
  [ "gpt-3.5-turbo-0613"; "gpt-3.5-turbo-16k-0613"; "gpt-4-0314";
    "gpt-4-32k-0314"; "gpt-4-0613"; "gpt-4-32k-0613" ].

Definition case0301 : list string := [ "gpt-3.5-turbo-0301" ].

Definition isCase (model : string) (names : list string) : bool :=
  existsb (String.eqb model) names.

Fixpoint countPromptTokens (fuel : nat) (model : string)
    (cc : option Request) {struct fuel} : option (Z * option error) :=
  match fuel with
  | O => None
  | S fuel' =>
      match cc with
      | None => Some (0, Some ErrNilRequest)
      | Some _ =>
          match EncodingForModel model with
          | inr err => Some (0, Some (ErrEncoding model err))
          | inl tkm =>
              let fixedCost := initialFixedCost in
              let afterSwitch := fun fixedCost : fixedTokenCost =>
                match toTokenRequest cc with
                | inr err => Some (0, Some (ErrConvert err))
                | inl req =>
                    Some (fold_left (addMessage tkm fixedCost)
                                    (Messages req) 0,
                          None)
                end in
              if isCase model case0613 then
                afterSwitch (withMessageName fixedCost 3 1)
              else if isCase model case0301 then
                afterSwitch (withMessageName fixedCost 4 (-1))
              else if Contains model "gpt-3.5-turbo" then
                countPromptTokens fuel' "gpt-3.5-turbo-0613" cc
              else if Contains model "gpt-4" then
                countPromptTokens fuel' "gpt-4-0613" cc
              else Some (0, Some (ErrUnknownModel model))
          end
      end
  end.

End Estimator.

(* ================================================================= *)
(** ** The request type *)

Module db.

(** Modelled from the spec: the message type of package [pkg/db], whose
    declaration is not part of this source file.  The design document gives
    a message a role, an optional name and text content, and lets it carry
    tool call payloads. *)
Record ChatCompletionRequestMessage : Type := {
  Role : string;
  Name : option string;
  Content : string;
  ToolCalls : list Value
}.

(** Modelled from the spec: [db.CreateChatCompletionRequest], declared in
    package [pkg/db] and not in this source file.  The design document
    describes an ordered sequence of messages plus optional tool
    definitions. *)
Record CreateChatCompletionRequest : Type := {
  Messages : list ChatCompletionRequestMessage;
  Tools : list Value
}.

(** Modelled from the spec: the JSON form of a message, an object with the
    members role, name (left out when there is no name), content and
    tool_calls.  The strings are written the way [json.Marshal] writes them,
    through [coerceUTF8]. *)
Definition marshalMessage (m : ChatCompletionRequestMessage) : Value :=
  Object ([("role", Str (coerceUTF8 (Role m)))]
            ++ match Name m with
               | Some n => [("name", Str (coerceUTF8 n))]
               | None => []
               end
            ++ [("content", Str (coerceUTF8 (Content m)));
                ("tool_calls", Array (ToolCalls m))]).

(** Modelled from the spec: the JSON form of the request, an object with
    the members messages and tools. *)
Definition marshalRequest (r : CreateChatCompletionRequest) : Value + error :=
  inl (Object [("messages", Array (map marshalMessage (Messages r)));
               ("tools", Array (Tools r))]).

End db.

(** The {name, role, content} projection of a message. *)
Definition projectMessage (m : db.ChatCompletionRequestMessage) : tokenMessage :=
  {| Name := match db.Name m with Some n => n | None => "" end;
     Role := db.Role m;
     Content := db.Content m |}.

(** A normalised message with its three strings as [json.Marshal] writes
    them. *)
Definition coerceMessage (msg : tokenMessage) : tokenMessage :=
  {| Name := coerceUTF8 (Name msg);
     Role := coerceUTF8 (Role msg);
     Content := coerceUTF8 (Content msg) |}.

Definition validMessage (msg : tokenMessage) : bool :=
  ValidString (Name msg) && ValidString (Role msg) && ValidString (Content msg).

#[export] Instance requestMarshaler : Marshaler db.CreateChatCompletionRequest :=
  db.marshalRequest.

(** A request handed over as a JSON document (Go's [json.RawMessage]); it
    reaches every branch of [Unmarshal], the failing ones included. *)
Definition RawMessage : Type := Value.

#[export] Instance rawMarshaler : Marshaler RawMessage := fun v => inl v.

(* ================================================================= *)
(** ** A tokenizer library to run the estimator on

    [ByteTokenizer] resolves a model name the way tiktoken-go does, first in
    a table of model names and then in a table of name prefixes, failing with
    "no encoding for model" when neither has it; the tables are cut down to a
    few entries.  The byte pair encoder itself is replaced by one token per
    byte. *)

Module ByteTokenizer.

Definition MODEL_TO_ENCODING : list string :=
  [ "gpt-4"; "gpt-3.5-turbo"; "text-davinci-003" ].

Definition MODEL_PREFIX_TO_ENCODING : list string :=
  [ "gpt-4-"; "gpt-3.5-turbo-" ].

Definition EncodingForModel (modelName : string) : unit + error :=
  if existsb (String.eqb modelName) MODEL_TO_ENCODING
     || existsb (HasPrefix modelName) MODEL_PREFIX_TO_ENCODING
  then inl tt
  else inr (ErrLibrary ("no encoding for model " ++ modelName)).

Definition Encode (_ : unit) (text : string) : list Z :=
  map (fun c => Z.of_nat (nat_of_ascii c)) (list_ascii_of_string text).

Definition lib : TiktokenLib :=
  Build_TiktokenLib unit EncodingForModel Encode.

End ByteTokenizer.

(* ================================================================= *)
(** ** The design document's description

    These definitions follow the words of the design document, not the
    source; the theorems below compare the two. *)

Section Reference.

Context {lib : TiktokenLib}.
Context {Request : Type} {marshaler : Marshaler Request}.

(** Steps 1 and 2: the fixed-cost profile of a model name and the name the
    tokenizer is finally acquired for. *)
Definition specResolve (model : string) : option (string * fixedTokenCost) :=
  if isCase model case0613 then
    Some (model, withMessageName initialFixedCost 3 1)
  else if isCase model case0301 then
    Some (model, withMessageName initialFixedCost 4 (-1))
  else if Contains model "gpt-3.5-turbo" then
    Some ("gpt-3.5-turbo-0613", withMessageName initialFixedCost 3 1)
  else if Contains model "gpt-4" then
    Some ("gpt-4-0613", withMessageName initialFixedCost 3 1)
  else None.

(** Step 4, for one message. *)
Definition specMessageTokens (tkm : Tiktoken) (fixedCost : fixedTokenCost)
    (msg : tokenMessage) : Z :=
  message fixedCost
  + count tkm (Content msg) + count tkm (Role msg) + count tkm (Name msg)
  + (if String.eqb (Name msg) "" then 0 else name fixedCost).

(** Step 5: the sum over the messages, in order. *)
Fixpoint specPromptTokens (tkm : Tiktoken) (fixedCost : fixedTokenCost)
    (msgs : list tokenMessage) : Z :=
  match msgs with
  | [] => 0
  | msg :: rest =>
      specMessageTokens tkm fixedCost msg
      + specPromptTokens tkm fixedCost rest
  end.

(** Steps 3 to 5: what is returned once the tokenizer is there and a
    profile is chosen. *)
Definition specAfterSwitch (tkm : Tiktoken) (fixedCost : fixedTokenCost)
    (from : Request) : Z * option error :=
  match toTokenRequest (Some from) with
  | inr err => (0, Some (ErrConvert err))
  | inl req =>
      (Int.wrapInt (specPromptTokens tkm fixedCost (Messages req)), None)
  end.

(** The whole contract for a non-nil request, with the order in which the
    source meets the failures. *)
Definition specEstimate (model : string) (from : Request)
    : Z * option error :=
  match EncodingForModel model with
  | inr err => (0, Some (ErrEncoding model err))
  | inl _ =>
      match specResolve model with
      | None => (0, Some (ErrUnknownModel model))
      | Some (resolved, fixedCost) =>
          match EncodingForModel resolved with
          | inr err => (0, Some (ErrEncoding resolved err))
          | inl tkm =>
              specAfterSwitch tkm fixedCost from
          end
      end
  end.

(** The failure conditions of section 7 of the design document. *)
Definition tokenizerUnavailable (model : string) : Prop :=
  (exists err, EncodingForModel model = inr err)
  \/ (exists resolved fixedCost err,
        specResolve model = Some (resolved, fixedCost)
        /\ EncodingForModel resolved = inr err).

Definition unknownFamily (model : string) : Prop :=
  specResolve model = None.

Definition normalizationFails (cc : option Request) : Prop :=
  exists from err, cc = Some from /\ toTokenRequest cc = inr err.

End Reference.

(* ================================================================= *)
(** ** Requests used as examples *)

Definition helloMessage : db.ChatCompletionRequestMessage :=
  {| db.Role := "user"; db.Name := None; db.Content := "hello";
     db.ToolCalls := [] |}.

Definition helloRequest : db.CreateChatCompletionRequest :=
  {| db.Messages := [helloMessage]; db.Tools := [] |}.

(** The same message, now with a name. *)
Definition helloBobRequest : db.CreateChatCompletionRequest :=
  {| db.Messages :=
       [ {| db.Role := "user"; db.Name := Some "bob"; db.Content := "hello";
            db.ToolCalls := [] |} ];
     db.Tools := [] |}.

(** The same message again, with a tool definition next to it. *)
Definition helloToolRequest : db.CreateChatCompletionRequest :=
  {| db.Messages := [helloMessage];
     db.Tools :=
       [ Object [("type", Str "function");
                 ("function", Object [("name", Str "lookup")])] ] |}.

(** A message whose content is the single byte FF, which is not UTF-8. *)
Definition invalidContentRequest : db.CreateChatCompletionRequest :=
  {| db.Messages :=
       [ {| db.Role := "user"; db.Name := None;
            db.Content := String (ascii_of_nat 255) EmptyString;
            db.ToolCalls := [] |} ];
     db.Tools := [] |}.

Definition emptyRequest : db.CreateChatCompletionRequest :=
  {| db.Messages := []; db.Tools := [] |}.

(** A JSON document whose message content is not text. *)
Definition numericContent : RawMessage :=
  Object [("messages", Array [Object [("role", Str "user");
                                      ("content", Number "1")]])].

(* ================================================================= *)
(** ** Shapes of JSON documents

    Which documents [json.Unmarshal] accepts for [tokenRequest], read off the
    field types of [tokenRequest] and [tokenMessage]: a string field takes a
    string or [null], the [messages] field an array or [null], a message an
    object or [null]. *)

Definition succeeds {A : Type} (r : A + error) : bool :=
  match r with
  | inl _ => true
  | inr _ => false
  end.

Definition stringTyped (v : Value) : bool :=
  match v with
  | Null | Str _ => true
  | _ => false
  end.

(** The key selects one of the three fields of [tokenMessage]. *)
Definition selectsMessageField (key : string) : bool :=
  keyMatches key "name" || keyMatches key "role" || keyMatches key "content".

Definition memberTyped (member : string * Value) : bool :=
  if selectsMessageField (fst member) then stringTyped (snd member) else true.

Definition messageTyped (v : Value) : bool :=
  match v with
  | Null => true
  | Object members => forallb memberTyped members
  | _ => false
  end.

Definition messagesTyped (v : Value) : bool :=
  match v with
  | Null => true
  | Array elems => forallb messageTyped elems
  | _ => false
  end.

Definition requestMemberTyped (member : string * Value) : bool :=
  if keyMatches (fst member) "messages" then messagesTyped (snd member)
  else true.

Definition requestTyped (v : Value) : bool :=
  match v with
  | Null => true
  | Object members => forallb requestMemberTyped members
  | _ => false
  end.

(** A document cut down to what [tokenRequest] reads: the members that
    select the messages field, and inside each message the members that
    select name, role or content. *)
Definition pruneMessage (v : Value) : Value :=
  match v with
  | Object members =>
      Object (filter (fun member => selectsMessageField (fst member)) members)
  | _ => v
  end.

Definition pruneMessages (v : Value) : Value :=
  match v with
  | Array elems => Array (map pruneMessage elems)
  | _ => v
  end.

Definition pruneRequest (v : Value) : Value :=
  match v with
  | Object members =>
      Object (map (fun member => (fst member, pruneMessages (snd member)))
                  (filter (fun member => keyMatches (fst member) "messages")
                          members))
  | _ => v
  end.

(** The member does not give the request any message: it selects another
    field, or it is [null]. *)
Definition givesNoMessages (member : string * Value) : bool :=
  match snd member with
  | Null => true
  | _ => negb (keyMatches (fst member) "messages")
  end.

(** The number of messages that carry a name. *)
Definition namedMessages (msgs : list tokenMessage) : nat :=
  List.length (filter (fun msg => negb (String.eqb (Name msg) "")) msgs).

(* ================================================================= *)
(** ** Further example inputs *)

Definition bobMessage : db.ChatCompletionRequestMessage :=
  {| db.Role := "user"; db.Name := Some "bob"; db.Content := "hello";
     db.ToolCalls := [] |}.

Definition helloThenBobRequest : db.CreateChatCompletionRequest :=
  {| db.Messages := [helloMessage; bobMessage]; db.Tools := [] |}.

Definition bobThenHelloRequest : db.CreateChatCompletionRequest :=
  {| db.Messages := [bobMessage; helloMessage]; db.Tools := [] |}.

(** A document with members no field of [tokenRequest] or [tokenMessage]
    takes. *)
Definition helloDocument : RawMessage :=
  Object [("model", Str "gpt-4");
          ("messages",
           Array [Object [("role", Str "user"); ("content", Str "hello");
                          ("tool_call_id", Number "7")]]);
          ("temperature", Number "0.5")].

(** The same document with those members removed. *)
Definition helloDocumentBare : RawMessage :=
  Object [("messages",
           Array [Object [("role", Str "user"); ("content", Str "hello")]])].

(** A document whose second message has a name that is not text. *)
Definition badNameDocument : RawMessage :=
  Object [("messages",
           Array [Object [("role", Str "user"); ("content", Str "hello")];
                  Object [("role", Str "user"); ("name", Bool true)];
                  Object [("content", Number "3")]])].

(** A document without a messages member. *)
Definition noMessagesDocument : RawMessage :=
  Object [("model", Str "gpt-4"); ("temperature", Number "0.5")].

(* ================================================================= *)
(** ** Proof automation *)

(** Closes the goal of an error branch: the result is as displayed, one of
    the failure conditions is among the hypotheses, and the kind fits. *)
Ltac error_case :=
  split; [reflexivity |];
  split; [split; [intros _; auto 8 | discriminate] |];
  split;
  [ intros ? Herr; inversion Herr; subst; split; [reflexivity | cbn; auto 8]
  | first [ discriminate | intros _; split; reflexivity ] ].

(* ================================================================= *)
(** ** Substring search *)

Lemma HasPrefix_spec (prefix : string) : forall s,
  HasPrefix s prefix = true <-> exists post, s = prefix ++ post.
Proof.
  unfold HasPrefix.
  induction prefix as [| a prefix' IH]; intros s.
  - split; [intros _; exists s; reflexivity | intros _; destruct s; reflexivity].
  - destruct s as [| b s']; cbn [String.prefix append].
    + split; [discriminate | intros [post Hpost]; discriminate].
    + destruct (Ascii.ascii_dec a b) as [-> | Hab].
      * rewrite IH. split; intros [post Hpost]; exists post.
        -- rewrite Hpost. reflexivity.
        -- inversion Hpost. reflexivity.
      * split; [discriminate |].
        intros [post Hpost]. inversion Hpost. congruence.
Qed.

(** [Contains s substr] holds exactly when [substr] occurs in [s]. *)
Lemma Contains_spec (substr : string) : forall s,
  Contains s substr = true <-> exists pre post, s = pre ++ substr ++ post.
Proof.
  induction s as [| c rest IH]; cbn [Contains]; rewrite orb_true_iff.
  - split.
    + intros [Hpre | Hfalse]; [| discriminate].
      apply HasPrefix_spec in Hpre as [post Hpost].
      exists "", post. exact Hpost.
    + intros (pre & post & Heq). left. apply HasPrefix_spec.
      destruct pre as [| c pre']; [| discriminate].
      exists post. exact Heq.
  - split.
    + intros [Hpre | Hrest].
      * apply HasPrefix_spec in Hpre as [post Hpost].
        exists "", post. exact Hpost.
      * apply IH in Hrest as (pre & post & Heq).
        exists (String c pre), post. cbn [append]. rewrite Heq. reflexivity.
    + intros (pre & post & Heq).
      destruct pre as [| c' pre'].
      * left. apply HasPrefix_spec. exists post. exact Heq.
      * right. apply IH. exists pre', post.
        cbn [append] in Heq. inversion Heq. reflexivity.
Qed.

(* ================================================================= *)
(** ** Arithmetic on machine integers *)

Lemma wrapInt_inRange (z : Z) : Int.inRange z -> Int.wrapInt z = z.
Proof.
  unfold Int.inRange, Int.minInt, Int.maxInt, Int.wrapInt. intros Hz.
  rewrite Z.mod_small; lia.
Qed.

Lemma wrapInt_range (z : Z) : Int.inRange (Int.wrapInt z).
Proof.
  unfold Int.inRange, Int.minInt, Int.maxInt, Int.wrapInt.
  pose proof (Z.mod_pos_bound (z + 2 ^ 63) (2 ^ 64) ltac:(lia)). lia.
Qed.

Lemma add_wrapInt_l (a b : Z) : Int.add (Int.wrapInt a) b = Int.wrapInt (a + b).
Proof.
  unfold Int.add, Int.wrapInt. f_equal.
  replace ((a + 2 ^ 63) mod 2 ^ 64 - 2 ^ 63 + b + 2 ^ 63)
    with ((a + 2 ^ 63) mod 2 ^ 64 + b) by ring.
  rewrite Z.add_mod_idemp_l by lia. f_equal. ring.
Qed.

Lemma wrapInt_0 : Int.wrapInt 0 = 0.
Proof. reflexivity. Qed.

(* ================================================================= *)
(** ** The loop computes the wrapped sum *)

Section Loop.

Context {lib : TiktokenLib}.

Lemma count_nonneg (tkm : Tiktoken) (s : string) : 0 <= count tkm s.
Proof. unfold count. lia. Qed.

Lemma addMessage_wrapInt tkm fixedCost a msg :
  addMessage tkm fixedCost (Int.wrapInt a) msg
  = Int.wrapInt (a + specMessageTokens tkm fixedCost msg).
Proof.
  unfold addMessage, specMessageTokens. cbn [fold_left].
  rewrite !add_wrapInt_l.
  destruct (String.eqb (Name msg) ""); f_equal; ring.
Qed.

Lemma fold_addMessage tkm fixedCost msgs : forall a,
  fold_left (addMessage tkm fixedCost) msgs (Int.wrapInt a)
  = Int.wrapInt (a + specPromptTokens tkm fixedCost msgs).
Proof.
  induction msgs as [| msg rest IH]; intros a; cbn [fold_left specPromptTokens].
  - f_equal. ring.
  - rewrite addMessage_wrapInt, IH. f_equal. ring.
Qed.

Lemma loop_specPromptTokens tkm fixedCost msgs :
  fold_left (addMessage tkm fixedCost) msgs 0
  = Int.wrapInt (specPromptTokens tkm fixedCost msgs).
Proof.
  rewrite <- wrapInt_0 at 1. rewrite fold_addMessage. reflexivity.
Qed.

Lemma specPromptTokens_app tkm fixedCost before after :
  specPromptTokens tkm fixedCost (before ++ after)%list
  = specPromptTokens tkm fixedCost before
    + specPromptTokens tkm fixedCost after.
Proof.
  induction before as [| msg rest IH]; cbn [app specPromptTokens]; lia.
Qed.

(** Every message costs at least three tokens when the profile is one of
    the two the source sets. *)
Lemma specPromptTokens_lower tkm fixedCost msgs :
  (message fixedCost = 3 /\ name fixedCost = 1)
  \/ (message fixedCost = 4 /\ name fixedCost = -1) ->
  3 * Z.of_nat (List.length msgs) <= specPromptTokens tkm fixedCost msgs.
Proof.
  intros Hfc.
  induction msgs as [| msg rest IH]; cbn [List.length specPromptTokens].
  - lia.
  - unfold specMessageTokens.
    pose proof (count_nonneg tkm (Content msg)).
    pose proof (count_nonneg tkm (Role msg)).
    pose proof (count_nonneg tkm (Name msg)).
    destruct (String.eqb (Name msg) ""); lia.
Qed.

End Loop.

(* ================================================================= *)
(** ** The source against the design document's description *)

Section Refinement.

Context {lib : TiktokenLib}.
Context {Request : Type} {marshaler : Marshaler Request}.

Lemma countPromptTokens_nil fuel model :
  countPromptTokens (S fuel) model (@None Request)
  = Some (0, Some ErrNilRequest).
Proof. reflexivity. Qed.

Lemma countPromptTokens_no_encoding fuel model (from : Request) err :
  EncodingForModel model = inr err ->
  countPromptTokens (S fuel) model (Some from)
  = Some (0, Some (ErrEncoding model err)).
Proof. intros Henc. cbn [countPromptTokens]. rewrite Henc. reflexivity. Qed.

Lemma countPromptTokens_case0613 fuel model (from : Request) tkm :
  EncodingForModel model = inl tkm ->
  isCase model case0613 = true ->
  countPromptTokens (S fuel) model (Some from)
  = Some (specAfterSwitch tkm (withMessageName initialFixedCost 3 1) from).
Proof.
  intros Henc Hcase. cbn [countPromptTokens]. rewrite Henc, Hcase.
  unfold specAfterSwitch.
  destruct (toTokenRequest (Some from)) as [req | err]; [| reflexivity].
  rewrite loop_specPromptTokens. reflexivity.
Qed.

Lemma countPromptTokens_case0301 fuel model (from : Request) tkm :
  EncodingForModel model = inl tkm ->
  isCase model case0613 = false ->
  isCase model case0301 = true ->
  countPromptTokens (S fuel) model (Some from)
  = Some (specAfterSwitch tkm (withMessageName initialFixedCost 4 (-1)) from).
Proof.
  intros Henc H0613 H0301. cbn [countPromptTokens].
  rewrite Henc, H0613, H0301. unfold specAfterSwitch.
  destruct (toTokenRequest (Some from)) as [req | err]; [| reflexivity].
  rewrite loop_specPromptTokens. reflexivity.
Qed.

(** The default branch: one more call, with the canonical name. *)
Lemma countPromptTokens_default fuel model (from : Request) tkm :
  EncodingForModel model = inl tkm ->
  isCase model case0613 = false ->
  isCase model case0301 = false ->
  countPromptTokens (S fuel) model (Some from)
  = if Contains model "gpt-3.5-turbo" then
      countPromptTokens fuel "gpt-3.5-turbo-0613" (Some from)
    else if Contains model "gpt-4" then
      countPromptTokens fuel "gpt-4-0613" (Some from)
    else Some (0, Some (ErrUnknownModel model)).
Proof.
  intros Henc H0613 H0301. cbn [countPromptTokens].
  rewrite Henc, H0613, H0301. reflexivity.
Qed.

(** A call with a name of the switch returns at depth one. *)
Lemma countPromptTokens_canonical fuel model (from : Request) :
  isCase model case0613 = true ->
  countPromptTokens (S fuel) model (Some from)
  = Some (match EncodingForModel model with
          | inr err => (0, Some (ErrEncoding model err))
          | inl tkm =>
              specAfterSwitch tkm (withMessageName initialFixedCost 3 1) from
          end).
Proof.
  intros Hcase. destruct (EncodingForModel model) as [tkm | err] eqn:Henc.
  - apply countPromptTokens_case0613; assumption.
  - apply countPromptTokens_no_encoding; assumption.
Qed.

Lemma specResolve_cases model :
  (isCase model case0613 = true
   /\ specResolve model = Some (model, withMessageName initialFixedCost 3 1))
  \/ (isCase model case0613 = false /\ isCase model case0301 = true
      /\ specResolve model
         = Some (model, withMessageName initialFixedCost 4 (-1)))
  \/ (isCase model case0613 = false /\ isCase model case0301 = false
      /\ Contains model "gpt-3.5-turbo" = true
      /\ specResolve model
         = Some ("gpt-3.5-turbo-0613", withMessageName initialFixedCost 3 1))
  \/ (isCase model case0613 = false /\ isCase model case0301 = false
      /\ Contains model "gpt-3.5-turbo" = false
      /\ Contains model "gpt-4" = true
      /\ specResolve model
         = Some ("gpt-4-0613", withMessageName initialFixedCost 3 1))
  \/ (isCase model case0613 = false /\ isCase model case0301 = false
      /\ Contains model "gpt-3.5-turbo" = false
      /\ Contains model "gpt-4" = false
      /\ specResolve model = None).
Proof.
  unfold specResolve.
  destruct (isCase model case0613); [tauto |].
  destruct (isCase model case0301); [tauto |].
  destruct (Contains model "gpt-3.5-turbo"); [tauto |].
  destruct (Contains model "gpt-4"); tauto.
Qed.

(** The source returns what the design document describes, at every call
    depth budget of two or more. *)
Lemma countPromptTokens_specEstimate fuel model (from : Request) :
  countPromptTokens (S (S fuel)) model (Some from)
  = Some (specEstimate model from).
Proof.
  unfold specEstimate.
  destruct (EncodingForModel model) as [tk0 | err] eqn:Henc.
  2: { apply countPromptTokens_no_encoding; assumption. }
  destruct (specResolve_cases model)
    as [[H1 ->] | [(H1 & H2 & ->) | [(H1 & H2 & H3 & ->)
       | [(H1 & H2 & H3 & H4 & ->) | (H1 & H2 & H3 & H4 & ->)]]]].
  - rewrite Henc. apply countPromptTokens_case0613; assumption.
  - rewrite Henc. apply countPromptTokens_case0301; assumption.
  - rewrite (countPromptTokens_default _ _ _ tk0), H3 by assumption.
    apply countPromptTokens_canonical. reflexivity.
  - rewrite (countPromptTokens_default _ _ _ tk0), H3, H4 by assumption.
    apply countPromptTokens_canonical. reflexivity.
  - rewrite (countPromptTokens_default _ _ _ tk0), H3, H4 by assumption.
    reflexivity.
Qed.

(** The profile [specResolve] yields is one of the two of the switch. *)
Lemma specResolve_profile model resolved fixedCost :
  specResolve model = Some (resolved, fixedCost) ->
  (message fixedCost = 3 /\ name fixedCost = 1)
  \/ (message fixedCost = 4 /\ name fixedCost = -1).
Proof.
  intros Hres.
  destruct (specResolve_cases model)
    as [[_ H] | [(_ & _ & H) | [(_ & _ & _ & H)
       | [(_ & _ & _ & _ & H) | (_ & _ & _ & _ & H)]]]];
    rewrite H in Hres; inversion Hres; subst; cbn; auto.
Qed.

End Refinement.

(* ================================================================= *)
(** ** Normalisation of a request *)

Lemma unmarshalElems_shape elems : forall msgs,
  unmarshalElems elems = inl msgs ->
  Forall2 (fun v msg => unmarshalTokenMessage v zeroTokenMessage = inl msg)
          elems msgs.
Proof.
  induction elems as [| v rest IH]; intros msgs Hdec; cbn in Hdec.
  - inversion Hdec. constructor.
  - destruct (unmarshalTokenMessage v zeroTokenMessage) as [msg |] eqn:Hmsg;
      cbn in Hdec; [| discriminate].
    destruct (unmarshalElems rest) as [msgs' |]; cbn in Hdec; [| discriminate].
    inversion Hdec; subst. constructor; auto.
Qed.

Lemma unmarshalMembers_app {T : Type} field (before after : list (string * Value))
    (dst : T) :
  unmarshalMembers field (before ++ after) dst
  = (dst' <- unmarshalMembers field before dst ;;
     unmarshalMembers field after dst').
Proof.
  revert dst. induction before as [| [key v] rest IH]; intros dst;
    cbn [app unmarshalMembers bind]; [reflexivity |].
  destruct (field key v dst) as [dst' | err]; cbn [bind]; [apply IH | reflexivity].
Qed.

(** Members that do not select the messages field leave the request as it
    is. *)
Lemma unmarshalMembers_skip (members : list (string * Value)) (to : tokenRequest) :
  forallb (fun member => negb (keyMatches (fst member) "messages")) members
  = true ->
  unmarshalMembers tokenRequestField members to = inl to.
Proof.
  induction members as [| [key v] rest IH]; cbn [forallb fst unmarshalMembers];
    [reflexivity |].
  intros Hskip. apply andb_true_iff in Hskip as [Hkey Hrest].
  unfold tokenRequestField at 1.
  apply negb_true_iff in Hkey. rewrite Hkey. cbn [bind]. apply IH. exact Hrest.
Qed.

Lemma coerceFrom_valid s : forall skip,
  validFrom skip s = true -> coerceFrom skip s = s.
Proof.
  induction s as [| c rest IH]; intros skip Hvalid; [reflexivity |].
  cbn [validFrom coerceFrom] in *.
  destruct skip as [| more].
  - destruct (runeSize (String c rest)) as [| more]; [discriminate |].
    rewrite (IH more Hvalid). reflexivity.
  - rewrite (IH more Hvalid). reflexivity.
Qed.

Lemma coerceUTF8_valid s : ValidString s = true -> coerceUTF8 s = s.
Proof. apply coerceFrom_valid. Qed.

Lemma coerceMessage_valid msg : validMessage msg = true -> coerceMessage msg = msg.
Proof.
  unfold validMessage, coerceMessage. intros Hvalid.
  apply andb_true_iff in Hvalid as [Hvalid Hcontent].
  apply andb_true_iff in Hvalid as [Hname Hrole].
  rewrite !coerceUTF8_valid by assumption. destruct msg; reflexivity.
Qed.

Lemma unmarshalTokenMessage_marshalMessage m :
  unmarshalTokenMessage (db.marshalMessage m) zeroTokenMessage
  = inl (coerceMessage (projectMessage m)).
Proof. destruct m as [role [nm |] content calls]; reflexivity. Qed.

Lemma unmarshalElems_marshalMessage msgs :
  unmarshalElems (map db.marshalMessage msgs)
  = inl (map coerceMessage (map projectMessage msgs)).
Proof.
  induction msgs as [| m rest IH]; [reflexivity |].
  cbn [map unmarshalElems].
  rewrite unmarshalTokenMessage_marshalMessage, IH. reflexivity.
Qed.

Lemma toTokenRequest_request (from : db.CreateChatCompletionRequest) :
  toTokenRequest (Some from)
  = inl {| Messages :=
             map coerceMessage (map projectMessage (db.Messages from)) |}.
Proof.
  unfold toTokenRequest, Marshal, requestMarshaler, db.marshalRequest.
  unfold Unmarshal. cbn [unmarshalMembers].
  replace (tokenRequestField "messages"
             (Array (map db.marshalMessage (db.Messages from)))
             zeroTokenRequest)
    with (@inl tokenRequest error
            {| Messages :=
                 map coerceMessage (map projectMessage (db.Messages from)) |}).
  - reflexivity.
  - unfold tokenRequestField.
    change (keyMatches "messages" "messages") with true. cbv iota.
    unfold unmarshalTokenMessages.
    rewrite unmarshalElems_marshalMessage. reflexivity.
Qed.

(* ================================================================= *)
(** ** The claims, for any tokenizer library and any request type *)

Section Claims.

Context {lib : TiktokenLib}.
Context {Request : Type} {marshaler : Marshaler Request}.

(** C1.  For a model the switch or its fallback resolves, a tokenizer that
    is acquired and a request that normalises, [countPromptTokens] returns
    the sum over the normalised messages, in order, of [message] plus the
    token counts of content, role and name, plus [name] exactly when the
    name is not empty (the sum being within [int]).  With a tokenizer that
    gives no token for the empty string: the single message
    user/hello/no-name under "gpt-3.5-turbo-0613" gives
    3 + count hello + count user + 0, and a message whose three fields are
    empty contributes [message] alone. *)
Theorem countPromptTokens_sum fuel model resolved fixedCost tk0 tkm
    (from : Request) req :
  specResolve model = Some (resolved, fixedCost) ->
  EncodingForModel model = inl tk0 ->
  EncodingForModel resolved = inl tkm ->
  toTokenRequest (Some from) = inl req ->
  Int.inRange (specPromptTokens tkm fixedCost (Messages req)) ->
  countPromptTokens (S (S fuel)) model (Some from)
  = Some (specPromptTokens tkm fixedCost (Messages req), None)
  /\ (count tkm "" = 0 ->
      model = "gpt-3.5-turbo-0613" ->
      Messages req = [ {| Name := ""; Role := "user"; Content := "hello" |} ] ->
      countPromptTokens (S (S fuel)) model (Some from)
      = Some (3 + count tkm "hello" + count tkm "user" + 0, None))
  /\ (count tkm "" = 0 ->
      forall before after,
        Messages req = (before ++ zeroTokenMessage :: after)%list ->
        countPromptTokens (S (S fuel)) model (Some from)
        = Some (specPromptTokens tkm fixedCost before
                + message fixedCost
                + specPromptTokens tkm fixedCost after, None)).
Proof.
  intros Hres Henc0 Henc Hreq Hrange.
  assert (Hmain : countPromptTokens (S (S fuel)) model (Some from)
                  = Some (specPromptTokens tkm fixedCost (Messages req), None)).
  { rewrite countPromptTokens_specEstimate. unfold specEstimate.
    rewrite Henc0, Hres, Henc. unfold specAfterSwitch. rewrite Hreq.
    rewrite wrapInt_inRange by assumption. reflexivity. }
  split; [exact Hmain |]. split.
  - intros Hempty -> Hmsgs. rewrite Hmain, Hmsgs.
    cbv [specResolve] in Hres. cbn in Hres. inversion Hres; subst.
    cbn [specPromptTokens]. unfold specMessageTokens.
    cbn [Name Role Content message withMessageName String.eqb].
    rewrite Hempty. do 2 f_equal. ring.
  - intros Hempty before after Hmsgs. rewrite Hmain, Hmsgs.
    rewrite specPromptTokens_app. cbn [specPromptTokens].
    unfold specMessageTokens.
    cbn [zeroTokenMessage Name Role Content String.eqb].
    rewrite Hempty. do 2 f_equal. ring.
Qed.

(** C3, as amended.  For a model name that is in neither case of the switch
    and contains neither "gpt-3.5-turbo" nor "gpt-4", a non-nil request
    gets a zero count and an error naming the model: the tokenizer error
    when no tokenizer can be acquired for that name, which is tried first,
    and the unknown-model error otherwise. *)
Theorem unknown_model_error fuel model (from : Request) :
  isCase model case0613 = false ->
  isCase model case0301 = false ->
  Contains model "gpt-3.5-turbo" = false ->
  Contains model "gpt-4" = false ->
  countPromptTokens (S fuel) model (Some from)
  = Some (0, Some match EncodingForModel model with
                  | inr err => ErrEncoding model err
                  | inl _ => ErrUnknownModel model
                  end).
Proof.
  intros H0613 H0301 H35 H4.
  destruct (EncodingForModel model) as [tk0 | err] eqn:Henc.
  - rewrite (countPromptTokens_default _ _ _ tk0) by assumption.
    rewrite H35, H4. reflexivity.
  - apply countPromptTokens_no_encoding. assumption.
Qed.

(** C2, as amended.  For a model name in neither case of the switch that
    contains "gpt-3.5-turbo", the call returns what the call with
    "gpt-3.5-turbo-0613" returns, and for one that contains "gpt-4" but not
    "gpt-3.5-turbo" what the call with "gpt-4-0613" returns, except that a
    non-nil request whose model name has no tokenizer gets a zero count and
    the tokenizer error naming that model name.  The "gpt-3.5-turbo" test
    comes first; both tests compare bytes, so upper-case spellings match
    neither and end in the unknown-model error. *)
Theorem fallback_equals_canonical fuel model (cc : option Request) :
  isCase model case0613 = false ->
  isCase model case0301 = false ->
  (Contains model "gpt-3.5-turbo" = true ->
   countPromptTokens (S (S fuel)) model cc
   = match cc, EncodingForModel model with
     | Some _, inr err => Some (0, Some (ErrEncoding model err))
     | _, _ => countPromptTokens (S (S fuel)) "gpt-3.5-turbo-0613" cc
     end)
  /\ (Contains model "gpt-3.5-turbo" = false ->
      Contains model "gpt-4" = true ->
      countPromptTokens (S (S fuel)) model cc
      = match cc, EncodingForModel model with
        | Some _, inr err => Some (0, Some (ErrEncoding model err))
        | _, _ => countPromptTokens (S (S fuel)) "gpt-4-0613" cc
        end)
  /\ (forall upper tk0 from,
        upper = "GPT-3.5-TURBO" \/ upper = "GPT-4" ->
        EncodingForModel upper = inl tk0 ->
        countPromptTokens (S (S fuel)) upper (Some from)
        = Some (0, Some (ErrUnknownModel upper))).
Proof.
  intros H0613 H0301. repeat split.
  - intros H35. destruct cc as [from |]; [| reflexivity].
    destruct (EncodingForModel model) as [tk0 | err] eqn:Henc.
    + rewrite (countPromptTokens_default _ _ _ tk0), H35 by assumption.
      rewrite !countPromptTokens_canonical by reflexivity. reflexivity.
    + apply countPromptTokens_no_encoding. assumption.
  - intros H35 H4. destruct cc as [from |]; [| reflexivity].
    destruct (EncodingForModel model) as [tk0 | err] eqn:Henc.
    + rewrite (countPromptTokens_default _ _ _ tk0), H35, H4 by assumption.
      rewrite !countPromptTokens_canonical by reflexivity. reflexivity.
    + apply countPromptTokens_no_encoding. assumption.
  - intros upper tk0 from [-> | ->] Henc;
      rewrite (countPromptTokens_default _ _ _ tk0) by (assumption || reflexivity);
      reflexivity.
Qed.

(** C4, as amended.  Under "gpt-3.5-turbo-0301", giving a message without a
    name a non-empty name, role and content unchanged, changes the total by
    count name - count "" - 1: the tokens of the name are added and the
    fixed cost of a name, -1, is applied. *)
Theorem name_delta_0301 fuel tkm (from from' : Request) before msg after nm :
  EncodingForModel "gpt-3.5-turbo-0301" = inl tkm ->
  Name msg = "" ->
  nm <> "" ->
  toTokenRequest (Some from)
  = inl {| Messages := (before ++ msg :: after)%list |} ->
  toTokenRequest (Some from')
  = inl {| Messages :=
             (before
                ++ {| Name := nm; Role := Role msg; Content := Content msg |}
                :: after)%list |} ->
  exists n n',
    countPromptTokens (S fuel) "gpt-3.5-turbo-0301" (Some from)
    = Some (n, None)
    /\ countPromptTokens (S fuel) "gpt-3.5-turbo-0301" (Some from')
       = Some (n', None)
    /\ n' = Int.wrapInt (n + count tkm nm - count tkm "" - 1)
    /\ (Int.inRange (n + count tkm nm - count tkm "" - 1) ->
        n' = n + count tkm nm - count tkm "" - 1).
Proof.
  intros Henc Hname Hnm Hreq Hreq'.
  assert (Hneq : String.eqb nm "" = false) by (apply String.eqb_neq; exact Hnm).
  pose (fc := withMessageName initialFixedCost 4 (-1)).
  exists (Int.wrapInt (specPromptTokens tkm fc (before ++ msg :: after))).
  exists (Int.wrapInt
            (specPromptTokens tkm fc
               (before
                  ++ {| Name := nm; Role := Role msg; Content := Content msg |}
                  :: after))).
  assert (Hdelta :
    Int.wrapInt
      (specPromptTokens tkm fc
         (before
            ++ {| Name := nm; Role := Role msg; Content := Content msg |}
            :: after))
    = Int.wrapInt
        (Int.wrapInt (specPromptTokens tkm fc (before ++ msg :: after))
         + count tkm nm - count tkm "" - 1)).
  { replace (Int.wrapInt (specPromptTokens tkm fc (before ++ msg :: after))
             + count tkm nm - count tkm "" - 1)
      with (Int.wrapInt (specPromptTokens tkm fc (before ++ msg :: after))
            + (count tkm nm - count tkm "" - 1)) by ring.
    fold (Int.add
            (Int.wrapInt (specPromptTokens tkm fc (before ++ msg :: after)))
            (count tkm nm - count tkm "" - 1)).
    rewrite add_wrapInt_l. f_equal.
    rewrite !specPromptTokens_app. cbn [specPromptTokens].
    unfold specMessageTokens. cbn [Name Role Content].
    rewrite Hname, Hneq. cbn [String.eqb fc withMessageName message name].
    ring. }
  repeat split.
  - rewrite (countPromptTokens_case0301 _ _ _ tkm) by (assumption || reflexivity).
    unfold specAfterSwitch. rewrite Hreq. reflexivity.
  - rewrite (countPromptTokens_case0301 _ _ _ tkm) by (assumption || reflexivity).
    unfold specAfterSwitch. rewrite Hreq'. reflexivity.
  - exact Hdelta.
  - intros Hrange. rewrite Hdelta. apply wrapInt_inRange. exact Hrange.
Qed.

(** C5.  [countPromptTokens] returns an error exactly when the request is
    nil, or no tokenizer can be acquired (for the model name, or for the
    name it resolves to), or the model family is unknown, or normalisation
    fails; the kind of the error names a condition that holds; the count
    next to an error is 0; a nil request always gets the nil-request error
    and count 0. *)
Theorem errors_exactly fuel model (cc : option Request) :
  exists n e,
    countPromptTokens (S (S fuel)) model cc = Some (n, e)
    /\ (e <> None <->
        cc = None \/ tokenizerUnavailable model \/ unknownFamily model
        \/ normalizationFails cc)
    /\ (forall err, e = Some err ->
        n = 0
        /\ ((kindOf err = Some InvalidInput /\ cc = None)
            \/ (kindOf err = Some TokenizerUnavailable
                /\ tokenizerUnavailable model)
            \/ (kindOf err = Some UnsupportedModel /\ unknownFamily model)
            \/ (kindOf err = Some NormalizationFailure
                /\ normalizationFails cc)))
    /\ (cc = None -> n = 0 /\ e = Some ErrNilRequest).
Proof.
  destruct cc as [from |].
  2: { exists 0, (Some ErrNilRequest). error_case. }
  rewrite countPromptTokens_specEstimate. unfold specEstimate.
  destruct (EncodingForModel model) as [tk0 | err0] eqn:Henc0.
  2: { assert (Hb : tokenizerUnavailable model) by (left; eauto).
       exists 0, (Some (ErrEncoding model err0)). error_case. }
  destruct (specResolve model) as [[resolved fixedCost] |] eqn:Hres.
  2: { assert (Hc : unknownFamily model) by exact Hres.
       exists 0, (Some (ErrUnknownModel model)). error_case. }
  destruct (EncodingForModel resolved) as [tkm | err1] eqn:Henc.
  2: { assert (Hb : tokenizerUnavailable model).
       { right. exists resolved, fixedCost, err1. split; assumption. }
       exists 0, (Some (ErrEncoding resolved err1)). error_case. }
  unfold specAfterSwitch.
  destruct (toTokenRequest (Some from)) as [req | err2] eqn:Hreq.
  2: { assert (Hd : normalizationFails (Some from)).
       { exists from, err2. split; [reflexivity | assumption]. }
       exists 0, (Some (ErrConvert err2)). error_case. }
  exists (Int.wrapInt (specPromptTokens tkm fixedCost (Messages req))), None.
  split; [reflexivity |]. split; [| split; [discriminate | discriminate]].
  split.
  - intros Hne. contradiction Hne. reflexivity.
  - intros [Ha | [[Hb | Hb] | [Hc | Hd]]].
    + discriminate.
    + destruct Hb as [err Hb]. congruence.
    + destruct Hb as (resolved' & fixedCost' & err & Hres' & Hb).
      rewrite Hres in Hres'. inversion Hres'; subst. congruence.
    + unfold unknownFamily in Hc. congruence.
    + destruct Hd as (from' & err & _ & Hd). congruence.
Qed.

(** The result depends on the request through its normal form only. *)
Lemma countPromptTokens_normal_form fuel : forall model (from1 from2 : Request),
  toTokenRequest (Some from1) = toTokenRequest (Some from2) ->
  countPromptTokens fuel model (Some from1)
  = countPromptTokens fuel model (Some from2).
Proof.
  induction fuel as [| fuel IH]; intros model from1 from2 Hnorm;
    [reflexivity |].
  cbn [countPromptTokens].
  destruct (EncodingForModel model) as [tkm | err]; [| reflexivity].
  rewrite Hnorm.
  destruct (isCase model case0613); [reflexivity |].
  destruct (isCase model case0301); [reflexivity |].
  destruct (Contains model "gpt-3.5-turbo"); [apply IH; exact Hnorm |].
  destruct (Contains model "gpt-4"); [apply IH; exact Hnorm |].
  reflexivity.
Qed.

(** C9.  Every call returns: a call-depth budget of two is enough whatever
    the model name and the request, and more budget changes nothing.  The
    two names the default branch calls with are names of the switch, so a
    call with one of them returns at depth one; a call that takes the
    default branch with a matching name does need the second level. *)
Theorem countPromptTokens_terminates model (cc : option Request) :
  (exists r, forall fuel, countPromptTokens (S (S fuel)) model cc = Some r)
  /\ isCase "gpt-3.5-turbo-0613" case0613 = true
  /\ isCase "gpt-4-0613" case0613 = true
  /\ (exists r, forall fuel,
        countPromptTokens (S fuel) "gpt-3.5-turbo-0613" cc = Some r)
  /\ (exists r, forall fuel,
        countPromptTokens (S fuel) "gpt-4-0613" cc = Some r)
  /\ (forall from tk0,
        cc = Some from ->
        EncodingForModel model = inl tk0 ->
        isCase model case0613 = false ->
        isCase model case0301 = false ->
        Contains model "gpt-3.5-turbo" || Contains model "gpt-4" = true ->
        countPromptTokens 1 model cc = None).
Proof.
  split; [| split; [reflexivity | split; [reflexivity | split; [| split]]]].
  - destruct cc as [from |].
    + exists (specEstimate model from). intros fuel.
      apply countPromptTokens_specEstimate.
    + exists (0, Some ErrNilRequest). reflexivity.
  - destruct cc as [from |].
    + eexists. intros fuel. apply countPromptTokens_canonical. reflexivity.
    + exists (0, Some ErrNilRequest). reflexivity.
  - destruct cc as [from |].
    + eexists. intros fuel. apply countPromptTokens_canonical. reflexivity.
    + exists (0, Some ErrNilRequest). reflexivity.
  - intros from tk0 -> Henc H0613 H0301 Hsub.
    rewrite (countPromptTokens_default _ _ _ tk0) by assumption.
    destruct (Contains model "gpt-3.5-turbo"); [reflexivity |].
    destruct (Contains model "gpt-4"); [reflexivity | discriminate].
Qed.

(** C10.  A call that returns without error resolved the model, acquired
    the tokenizer and normalised the request; the count is the wrapped sum,
    the sum is at least three per normalised message, and as long as the
    sum is within [int] the count is at least three per message, hence not
    negative. *)
Theorem count_at_least_three_per_message fuel model (from : Request) n :
  countPromptTokens (S (S fuel)) model (Some from) = Some (n, None) ->
  exists resolved fixedCost tkm req,
    specResolve model = Some (resolved, fixedCost)
    /\ EncodingForModel resolved = inl tkm
    /\ toTokenRequest (Some from) = inl req
    /\ n = Int.wrapInt (specPromptTokens tkm fixedCost (Messages req))
    /\ 3 * Z.of_nat (List.length (Messages req))
       <= specPromptTokens tkm fixedCost (Messages req)
    /\ (Int.inRange (specPromptTokens tkm fixedCost (Messages req)) ->
        3 * Z.of_nat (List.length (Messages req)) <= n /\ 0 <= n).
Proof.
  rewrite countPromptTokens_specEstimate. unfold specEstimate.
  destruct (EncodingForModel model) as [tk0 | err0]; [| discriminate].
  destruct (specResolve model) as [[resolved fixedCost] |] eqn:Hres;
    [| discriminate].
  destruct (EncodingForModel resolved) as [tkm | err1] eqn:Henc;
    [| discriminate].
  unfold specAfterSwitch.
  destruct (toTokenRequest (Some from)) as [req | err2] eqn:Hreq;
    [| discriminate].
  intros Hret. inversion Hret; subst. clear Hret.
  pose proof (specPromptTokens_lower tkm fixedCost (Messages req)
                (specResolve_profile _ _ _ Hres)) as Hlow.
  exists resolved, fixedCost, tkm, req. repeat split; auto.
  - rewrite wrapInt_inRange by assumption. exact Hlow.
  - rewrite wrapInt_inRange by assumption. lia.
Qed.

End Claims.

(* ================================================================= *)
(** ** The claims about the request record *)

(** C6.  Tool definitions add nothing to the count.  Two requests that
    normalise to the same message triples get the same result, whatever else
    they hold; in particular two request records whose messages have the same
    {name, role, content} projections get the same result whatever their tool
    definitions and tool call payloads are. *)
Theorem tools_do_not_count {lib : TiktokenLib} :
  (forall (Request : Type) (marshaler : Marshaler Request) fuel model
          (from1 from2 : Request) req1 req2,
      toTokenRequest (Some from1) = inl req1 ->
      toTokenRequest (Some from2) = inl req2 ->
      Messages req1 = Messages req2 ->
      countPromptTokens fuel model (Some from1)
      = countPromptTokens fuel model (Some from2))
  /\ (forall fuel model msgs1 msgs2 tools1 tools2,
        map projectMessage msgs1 = map projectMessage msgs2 ->
        countPromptTokens fuel model
          (Some {| db.Messages := msgs1; db.Tools := tools1 |})
        = countPromptTokens fuel model
            (Some {| db.Messages := msgs2; db.Tools := tools2 |})).
Proof.
  split.
  - intros Request marshaler fuel model from1 from2 [msgs1] [msgs2] H1 H2 Hmsgs.
    cbn in Hmsgs. subst msgs2.
    apply countPromptTokens_normal_form. rewrite H1, H2. reflexivity.
  - intros fuel model msgs1 msgs2 tools1 tools2 Hproj.
    apply countPromptTokens_normal_form.
    rewrite !toTokenRequest_request. cbn [db.Messages].
    rewrite Hproj. reflexivity.
Qed.

(** C7.  For a model that resolves and whose tokenizer is acquired, a request
    whose message list is empty gets count 0 and no error. *)
Theorem empty_messages_zero {lib : TiktokenLib} fuel model resolved fixedCost
    tk0 tkm :
  specResolve model = Some (resolved, fixedCost) ->
  EncodingForModel model = inl tk0 ->
  EncodingForModel resolved = inl tkm ->
  (forall tools,
      countPromptTokens (S (S fuel)) model
        (Some {| db.Messages := []; db.Tools := tools |})
      = Some (0, None))
  /\ (forall (Request : Type) (marshaler : Marshaler Request) (from : Request)
             req,
        toTokenRequest (Some from) = inl req ->
        Messages req = [] ->
        countPromptTokens (S (S fuel)) model (Some from) = Some (0, None)).
Proof.
  intros Hres Henc0 Henc.
  assert (Hgen : forall (Request : Type) (marshaler : Marshaler Request)
                        (from : Request) req,
             toTokenRequest (Some from) = inl req ->
             Messages req = [] ->
             countPromptTokens (S (S fuel)) model (Some from) = Some (0, None)).
  { intros Request marshaler from req Hreq Hempty.
    rewrite countPromptTokens_specEstimate. unfold specEstimate.
    rewrite Henc0, Hres, Henc. unfold specAfterSwitch.
    rewrite Hreq, Hempty. reflexivity. }
  split; [| exact Hgen].
  intros tools. eapply Hgen.
  - apply toTokenRequest_request.
  - reflexivity.
Qed.

(** C8, as amended.  When normalisation of a request succeeds, the
    normalised list is as long as the message list of the request and has, at
    each position, the {name, role, content} projection of the message at
    that position with each string as [json.Marshal] writes it: every byte
    that starts no valid UTF-8 sequence replaced by U+FFFD.  A message whose
    three strings are valid UTF-8 is mapped to its projection itself.  On
    the JSON form of any request: when the document has one member that
    selects the messages field, and it is an array, the normalised list has
    one message per array element, each decoded from the element at its
    position. *)
Theorem toTokenRequest_projects :
  (forall (from : db.CreateChatCompletionRequest) req,
      toTokenRequest (Some from) = inl req ->
      List.length (Messages req) = List.length (db.Messages from)
      /\ (forall i,
            nth_error (Messages req) i
            = option_map (fun m => coerceMessage (projectMessage m))
                         (nth_error (db.Messages from) i))
      /\ (forall i m,
            nth_error (db.Messages from) i = Some m ->
            validMessage (projectMessage m) = true ->
            nth_error (Messages req) i = Some (projectMessage m)))
  /\ (forall (before after : list (string * Value)) key elems req,
        keyMatches key "messages" = true ->
        forallb (fun member => negb (keyMatches (fst member) "messages"))
                (before ++ after) = true ->
        toTokenRequest (marshaler := rawMarshaler)
          (Some (Object (before ++ (key, Array elems) :: after))) = inl req ->
        List.length (Messages req) = List.length elems
        /\ Forall2 (fun v msg =>
                      unmarshalTokenMessage v zeroTokenMessage = inl msg)
                   elems (Messages req)).
Proof.
  split.
  - intros from req. rewrite toTokenRequest_request.
    intros Hreq. inversion Hreq; subst. cbn [Messages].
    assert (Hnth : forall i,
               nth_error (map coerceMessage
                            (map projectMessage (db.Messages from))) i
               = option_map (fun m => coerceMessage (projectMessage m))
                            (nth_error (db.Messages from) i)).
    { intros i. rewrite map_map. apply nth_error_map. }
    split; [rewrite !length_map; reflexivity |]. split; [exact Hnth |].
    intros i m Hm Hvalid. rewrite Hnth, Hm. cbn [option_map].
    rewrite coerceMessage_valid by exact Hvalid. reflexivity.
  - intros before after key elems req Hkey Hothers Hreq.
    rewrite forallb_app in Hothers.
    apply andb_true_iff in Hothers as [Hbefore Hafter].
    unfold toTokenRequest, Marshal, rawMarshaler, Unmarshal in Hreq.
    rewrite unmarshalMembers_app in Hreq.
    rewrite (unmarshalMembers_skip _ _ Hbefore) in Hreq.
    cbn [bind unmarshalMembers] in Hreq.
    unfold tokenRequestField at 1 in Hreq. rewrite Hkey in Hreq.
    unfold unmarshalTokenMessages in Hreq.
    destruct (unmarshalElems elems) as [msgs |] eqn:Helems;
      cbn [bind] in Hreq.
    + rewrite (unmarshalMembers_skip _ _ Hafter) in Hreq.
      inversion Hreq; subst. cbn [Messages].
      pose proof (unmarshalElems_shape _ _ Helems) as Hshape.
      split; [| exact Hshape].
      symmetry. eapply Forall2_length. exact Hshape.
    + discriminate.
Qed.

(* ================================================================= *)
(** ** The claims at concrete inputs *)

Lemma countPromptTokens_sum_witness :
  countPromptTokens (lib := ByteTokenizer.lib) 2 "gpt-3.5-turbo-0613"
    (Some helloRequest)
  = Some (3 + 5 + 4 + 0, None).
Proof.
  refine (proj1 (proj2
    (countPromptTokens_sum (lib := ByteTokenizer.lib) 0
       "gpt-3.5-turbo-0613" "gpt-3.5-turbo-0613"
       (withMessageName initialFixedCost 3 1) tt tt helloRequest
       {| Messages := [projectMessage helloMessage] |}
       eq_refl eq_refl eq_refl eq_refl _)) eq_refl eq_refl eq_refl).
  vm_compute. split; discriminate.
Defined.

(** A name with a tokenizer but outside both families: the unknown-model
    branch. *)
Example known_to_tokenizer_only :
  countPromptTokens (lib := ByteTokenizer.lib) 2 "text-davinci-003"
    (Some helloRequest)
  = Some (0, Some (ErrUnknownModel "text-davinci-003")).
Proof. reflexivity. Qed.

(** A document whose content is a number: normalisation fails. *)
Example numeric_content_fails :
  countPromptTokens (lib := ByteTokenizer.lib) 2 "gpt-4" (Some numericContent)
  = Some (0, Some (ErrConvert
                     (UnmarshalTypeError (Number "1") "string"))).
Proof. reflexivity. Qed.

Lemma fallback_equals_canonical_witness :
  countPromptTokens (lib := ByteTokenizer.lib) 2 "gpt-4" (Some helloRequest)
  = countPromptTokens (lib := ByteTokenizer.lib) 2 "gpt-4-0613"
      (Some helloRequest)
  /\ countPromptTokens (lib := ByteTokenizer.lib) 2 "gpt-3.5-turbo-16k"
       (Some helloRequest)
     = countPromptTokens (lib := ByteTokenizer.lib) 2 "gpt-3.5-turbo-0613"
         (Some helloRequest).
Proof.
  split.
  - exact (proj1 (proj2
      (fallback_equals_canonical (lib := ByteTokenizer.lib) 0 "gpt-4"
         (Some helloRequest) eq_refl eq_refl)) eq_refl eq_refl).
  - exact (proj1
      (fallback_equals_canonical (lib := ByteTokenizer.lib) 0
         "gpt-3.5-turbo-16k" (Some helloRequest) eq_refl eq_refl) eq_refl).
Defined.

(** C2 fails as stated: "my-gpt-4" is in neither case of the switch and
    contains "gpt-4", yet the call with it returns the tokenizer error while
    the call with "gpt-4-0613" returns a count. *)
Lemma fallback_differs_without_tokenizer :
  isCase "my-gpt-4" case0613 = false
  /\ isCase "my-gpt-4" case0301 = false
  /\ Contains "my-gpt-4" "gpt-3.5-turbo" = false
  /\ Contains "my-gpt-4" "gpt-4" = true
  /\ countPromptTokens (lib := ByteTokenizer.lib) 2 "my-gpt-4"
       (Some helloRequest)
     = Some (0, Some (ErrEncoding "my-gpt-4"
                        (ErrLibrary "no encoding for model my-gpt-4")))
  /\ countPromptTokens (lib := ByteTokenizer.lib) 2 "gpt-4-0613"
       (Some helloRequest)
     = Some (12, None)
  /\ countPromptTokens (lib := ByteTokenizer.lib) 2 "my-gpt-4"
       (Some helloRequest)
     <> countPromptTokens (lib := ByteTokenizer.lib) 2 "gpt-4-0613"
          (Some helloRequest).
Proof. repeat split. discriminate. Qed.

Lemma unknown_model_error_witness :
  countPromptTokens (lib := ByteTokenizer.lib) 2 "totally-unknown-model"
    (Some helloRequest)
  = Some (0, Some (ErrEncoding "totally-unknown-model"
                     (ErrLibrary "no encoding for model totally-unknown-model"))).
Proof.
  exact (unknown_model_error (lib := ByteTokenizer.lib) 1
           "totally-unknown-model" helloRequest
           eq_refl eq_refl eq_refl eq_refl).
Defined.

(** C3 fails as stated: no tokenizer is found for "totally-unknown-model", so
    the error returned is the tokenizer error, not the unknown-model one. *)
Lemma unknown_model_gets_tokenizer_error :
  exists err,
    countPromptTokens (lib := ByteTokenizer.lib) 2 "totally-unknown-model"
      (Some helloRequest)
    = Some (0, Some err)
    /\ kindOf err = Some TokenizerUnavailable
    /\ kindOf err <> Some UnsupportedModel.
Proof.
  eexists. split; [reflexivity |]. split; [reflexivity | discriminate].
Qed.

Lemma name_delta_0301_witness :
  exists n n',
    countPromptTokens (lib := ByteTokenizer.lib) 1 "gpt-3.5-turbo-0301"
      (Some helloRequest) = Some (n, None)
    /\ countPromptTokens (lib := ByteTokenizer.lib) 1 "gpt-3.5-turbo-0301"
         (Some helloBobRequest) = Some (n', None)
    /\ n' = Int.wrapInt (n + 3 - 0 - 1)
    /\ (Int.inRange (n + 3 - 0 - 1) -> n' = n + 3 - 0 - 1).
Proof.
  refine (name_delta_0301 (lib := ByteTokenizer.lib) 0 tt
            helloRequest helloBobRequest [] (projectMessage helloMessage) []
            "bob" eq_refl eq_refl _ eq_refl eq_refl).
  discriminate.
Defined.

(** C4 fails as stated: with the name "bob" the count is 15, without a name
    it is 13. *)
Lemma name_does_not_decrease_count :
  exists n n',
    countPromptTokens (lib := ByteTokenizer.lib) 1 "gpt-3.5-turbo-0301"
      (Some helloRequest) = Some (n, None)
    /\ countPromptTokens (lib := ByteTokenizer.lib) 1 "gpt-3.5-turbo-0301"
         (Some helloBobRequest) = Some (n', None)
    /\ n = 13 /\ n' = 15 /\ n' <> n - 1.
Proof.
  exists 13, 15. repeat split. discriminate.
Qed.

Lemma errors_exactly_witness :
  exists n e,
    countPromptTokens (lib := ByteTokenizer.lib) 2 "gpt-4" (Some numericContent)
    = Some (n, e)
    /\ (e <> None <->
        Some numericContent = None
        \/ tokenizerUnavailable (lib := ByteTokenizer.lib) "gpt-4"
        \/ unknownFamily "gpt-4"
        \/ normalizationFails (Some numericContent))
    /\ (forall err, e = Some err ->
        n = 0
        /\ ((kindOf err = Some InvalidInput /\ Some numericContent = None)
            \/ (kindOf err = Some TokenizerUnavailable
                /\ tokenizerUnavailable (lib := ByteTokenizer.lib) "gpt-4")
            \/ (kindOf err = Some UnsupportedModel /\ unknownFamily "gpt-4")
            \/ (kindOf err = Some NormalizationFailure
                /\ normalizationFails (Some numericContent))))
    /\ (Some numericContent = None -> n = 0 /\ e = Some ErrNilRequest).
Proof.
  exact (errors_exactly (lib := ByteTokenizer.lib) 0 "gpt-4"
           (Some numericContent)).
Defined.

Lemma tools_do_not_count_witness :
  countPromptTokens (lib := ByteTokenizer.lib) 2 "gpt-4" (Some helloRequest)
  = countPromptTokens (lib := ByteTokenizer.lib) 2 "gpt-4"
      (Some helloToolRequest).
Proof.
  exact (proj2 (tools_do_not_count (lib := ByteTokenizer.lib)) 2%nat "gpt-4"
           (db.Messages helloRequest) (db.Messages helloToolRequest)
           (db.Tools helloRequest) (db.Tools helloToolRequest) eq_refl).
Defined.

Lemma empty_messages_zero_witness :
  countPromptTokens (lib := ByteTokenizer.lib) 2 "gpt-4" (Some emptyRequest)
  = Some (0, None).
Proof.
  exact (proj1 (empty_messages_zero (lib := ByteTokenizer.lib) 0 "gpt-4"
                  "gpt-4-0613" (withMessageName initialFixedCost 3 1) tt tt
                  eq_refl eq_refl eq_refl) []).
Defined.

Lemma toTokenRequest_projects_witness :
  List.length [projectMessage bobMessage]
  = List.length (db.Messages helloBobRequest)
  /\ nth_error [projectMessage bobMessage] 0
     = Some {| Name := "bob"; Role := "user"; Content := "hello" |}.
Proof.
  pose proof (proj1 toTokenRequest_projects helloBobRequest
                {| Messages := [projectMessage bobMessage] |} eq_refl)
    as [Hlen [_ Hvalid]].
  split; [exact Hlen |].
  exact (Hvalid 0%nat bobMessage eq_refl eq_refl).
Defined.

(** C8 fails as stated: a content that is the byte FF is normalised to the
    three bytes of U+FFFD, which is not the content of the projection. *)
Lemma invalid_utf8_is_not_projected :
  exists req,
    toTokenRequest (Some invalidContentRequest) = inl req
    /\ Messages req
       = [ {| Name := ""; Role := "user"; Content := replacementChar |} ]
    /\ map projectMessage (db.Messages invalidContentRequest)
       = [ {| Name := ""; Role := "user";
              Content := String (ascii_of_nat 255) EmptyString |} ]
    /\ nth_error (Messages req) 0
       <> option_map projectMessage
            (nth_error (db.Messages invalidContentRequest) 0).
Proof.
  eexists. split; [reflexivity |]. split; [reflexivity |].
  split; [reflexivity |]. cbn. discriminate.
Qed.

Lemma countPromptTokens_terminates_witness :
  exists r, forall fuel,
    countPromptTokens (lib := ByteTokenizer.lib) (S (S fuel)) "gpt-4"
      (Some helloRequest) = Some r.
Proof.
  exact (proj1 (countPromptTokens_terminates (lib := ByteTokenizer.lib)
                  "gpt-4" (Some helloRequest))).
Defined.

Lemma count_at_least_three_per_message_witness :
  exists resolved fixedCost tkm req,
    specResolve "gpt-3.5-turbo-0301" = Some (resolved, fixedCost)
    /\ EncodingForModel (TiktokenLib := ByteTokenizer.lib) resolved = inl tkm
    /\ toTokenRequest (Some helloBobRequest) = inl req
    /\ 15 = Int.wrapInt (specPromptTokens tkm fixedCost (Messages req))
    /\ 3 * Z.of_nat (List.length (Messages req))
       <= specPromptTokens tkm fixedCost (Messages req)
    /\ (Int.inRange (specPromptTokens tkm fixedCost (Messages req)) ->
        3 * Z.of_nat (List.length (Messages req)) <= 15 /\ 0 <= 15).
Proof.
  exact (count_at_least_three_per_message (lib := ByteTokenizer.lib) 0
           "gpt-3.5-turbo-0301" helloBobRequest 15 eq_refl).
Defined.

(* ================================================================= *)
(** ** How counts compose *)

Lemma add_wrapInt (a b : Z) :
  Int.add (Int.wrapInt a) (Int.wrapInt b) = Int.wrapInt (a + b).
Proof.
  rewrite add_wrapInt_l.
  replace (a + Int.wrapInt b) with (Int.wrapInt b + a) by ring.
  change (Int.wrapInt (Int.wrapInt b + a)) with (Int.add (Int.wrapInt b) a).
  rewrite add_wrapInt_l. f_equal. ring.
Qed.

Section Composition.

Context {lib : TiktokenLib}.
Context {Request : Type} {marshaler : Marshaler Request}.

(** A call that succeeds went through every step. *)
Lemma countPromptTokens_success fuel model (from : Request) n :
  countPromptTokens (S (S fuel)) model (Some from) = Some (n, None) ->
  exists tk0 resolved fixedCost tkm req,
    EncodingForModel model = inl tk0
    /\ specResolve model = Some (resolved, fixedCost)
    /\ EncodingForModel resolved = inl tkm
    /\ toTokenRequest (Some from) = inl req
    /\ n = Int.wrapInt (specPromptTokens tkm fixedCost (Messages req)).
Proof.
  rewrite countPromptTokens_specEstimate. unfold specEstimate.
  destruct (EncodingForModel model) as [tk0 | err0]; [| discriminate].
  destruct (specResolve model) as [[resolved fixedCost] |]; [| discriminate].
  destruct (EncodingForModel resolved) as [tkm | err1] eqn:Henc;
    [| discriminate].
  unfold specAfterSwitch.
  destruct (toTokenRequest (Some from)) as [req | err2]; [| discriminate].
  intros Hret. inversion Hret; subst.
  exists tk0, resolved, fixedCost, tkm, req. repeat split; auto.
Qed.

Lemma countPromptTokens_resolved fuel model (from : Request) tk0 resolved
    fixedCost tkm req :
  EncodingForModel model = inl tk0 ->
  specResolve model = Some (resolved, fixedCost) ->
  EncodingForModel resolved = inl tkm ->
  toTokenRequest (Some from) = inl req ->
  countPromptTokens (S (S fuel)) model (Some from)
  = Some (Int.wrapInt (specPromptTokens tkm fixedCost (Messages req)), None).
Proof.
  intros Henc0 Hres Henc Hreq.
  rewrite countPromptTokens_specEstimate. unfold specEstimate.
  rewrite Henc0, Hres, Henc. unfold specAfterSwitch. rewrite Hreq.
  reflexivity.
Qed.

Lemma specPromptTokens_Permutation tkm fixedCost msgs1 msgs2 :
  Permutation msgs1 msgs2 ->
  specPromptTokens tkm fixedCost msgs1 = specPromptTokens tkm fixedCost msgs2.
Proof.
  induction 1; cbn [specPromptTokens]; lia.
Qed.

(** Every profile but that of "gpt-3.5-turbo-0301" is {message 3, name 1}. *)
Lemma specResolve_not_0301 model resolved fixedCost :
  specResolve model = Some (resolved, fixedCost) ->
  model <> "gpt-3.5-turbo-0301" ->
  fixedCost = withMessageName initialFixedCost 3 1.
Proof.
  intros Hres Hneq.
  destruct (specResolve_cases model)
    as [[_ H] | [(_ & H0301 & _) | [(_ & _ & _ & H)
       | [(_ & _ & _ & _ & H) | (_ & _ & _ & _ & H)]]]];
    try (rewrite H in Hres; inversion Hres; reflexivity).
  exfalso. apply Hneq. unfold isCase, case0301 in H0301. cbn [existsb] in H0301.
  rewrite orb_false_r in H0301. apply String.eqb_eq. exact H0301.
Qed.

(** X1.  The count of a conversation is the sum, on [int], of the counts of
    its two halves: when a request normalises to the messages of a first
    request followed by those of a second, and the calls for the two succeed,
    the call for the whole succeeds with the sum of their counts. *)
Theorem count_of_concatenation fuel model (from1 from2 from12 : Request)
    msgs1 msgs2 n1 n2 :
  toTokenRequest (Some from1) = inl {| Messages := msgs1 |} ->
  toTokenRequest (Some from2) = inl {| Messages := msgs2 |} ->
  toTokenRequest (Some from12) = inl {| Messages := (msgs1 ++ msgs2)%list |} ->
  countPromptTokens (S (S fuel)) model (Some from1) = Some (n1, None) ->
  countPromptTokens (S (S fuel)) model (Some from2) = Some (n2, None) ->
  countPromptTokens (S (S fuel)) model (Some from12)
  = Some (Int.add n1 n2, None).
Proof.
  intros H1 H2 H12 Hn1 Hn2.
  apply countPromptTokens_success in Hn1
    as (tk0 & resolved & fixedCost & tkm & req1 & Henc0 & Hres & Henc & Hreq1 & ->).
  rewrite (countPromptTokens_resolved _ _ _ _ _ _ _ _ Henc0 Hres Henc H2) in Hn2.
  inversion Hn2; subst. clear Hn2.
  rewrite (countPromptTokens_resolved _ _ _ _ _ _ _ _ Henc0 Hres Henc H12).
  rewrite H1 in Hreq1. inversion Hreq1; subst.
  cbn [Messages]. rewrite specPromptTokens_app, add_wrapInt. reflexivity.
Qed.

(** X2.  The order of the messages does not matter: two requests whose
    normalised message lists are permutations of each other get the same
    result. *)
Theorem count_of_permutation fuel model (from1 from2 : Request) req1 req2 :
  toTokenRequest (Some from1) = inl req1 ->
  toTokenRequest (Some from2) = inl req2 ->
  Permutation (Messages req1) (Messages req2) ->
  countPromptTokens (S (S fuel)) model (Some from1)
  = countPromptTokens (S (S fuel)) model (Some from2).
Proof.
  intros H1 H2 Hperm.
  rewrite !countPromptTokens_specEstimate. f_equal. unfold specEstimate.
  destruct (EncodingForModel model) as [tk0 | err0]; [| reflexivity].
  destruct (specResolve model) as [[resolved fixedCost] |]; [| reflexivity].
  destruct (EncodingForModel resolved) as [tkm | err1]; [| reflexivity].
  unfold specAfterSwitch. rewrite H1, H2.
  rewrite (specPromptTokens_Permutation _ _ _ _ Hperm). reflexivity.
Qed.

(** X3.  Appending messages only adds tokens: when the total for the longer
    conversation fits [int], its count exceeds the count of the shorter one by
    at least three per appended message. *)
Theorem count_grows_with_messages fuel model (from1 from12 : Request)
    tk0 resolved fixedCost tkm msgs1 msgs2 :
  EncodingForModel model = inl tk0 ->
  specResolve model = Some (resolved, fixedCost) ->
  EncodingForModel resolved = inl tkm ->
  toTokenRequest (Some from1) = inl {| Messages := msgs1 |} ->
  toTokenRequest (Some from12) = inl {| Messages := (msgs1 ++ msgs2)%list |} ->
  Int.inRange (specPromptTokens tkm fixedCost (msgs1 ++ msgs2)) ->
  exists n1 n12,
    countPromptTokens (S (S fuel)) model (Some from1) = Some (n1, None)
    /\ countPromptTokens (S (S fuel)) model (Some from12) = Some (n12, None)
    /\ n1 + 3 * Z.of_nat (List.length msgs2) <= n12.
Proof.
  intros Henc0 Hres Henc H1 H12 Hrange.
  pose proof (specResolve_profile _ _ _ Hres) as Hprofile.
  pose proof (specPromptTokens_lower tkm fixedCost msgs1 Hprofile) as Hlow1.
  pose proof (specPromptTokens_lower tkm fixedCost msgs2 Hprofile) as Hlow2.
  rewrite specPromptTokens_app in Hrange.
  assert (Hrange1 : Int.inRange (specPromptTokens tkm fixedCost msgs1)).
  { unfold Int.inRange, Int.minInt, Int.maxInt in *. lia. }
  exists (specPromptTokens tkm fixedCost msgs1).
  exists (specPromptTokens tkm fixedCost msgs1
          + specPromptTokens tkm fixedCost msgs2).
  repeat split.
  - rewrite (countPromptTokens_resolved _ _ _ _ _ _ _ _ Henc0 Hres Henc H1).
    cbn [Messages]. rewrite wrapInt_inRange by exact Hrange1. reflexivity.
  - rewrite (countPromptTokens_resolved _ _ _ _ _ _ _ _ Henc0 Hres Henc H12).
    cbn [Messages]. rewrite specPromptTokens_app.
    rewrite wrapInt_inRange by exact Hrange. reflexivity.
  - lia.
Qed.

End Composition.

(* ================================================================= *)
(** ** The two cost profiles *)

Section Profiles.

Context {lib : TiktokenLib}.
Context {Request : Type} {marshaler : Marshaler Request}.

Lemma specPromptTokens_profiles tkm msgs :
  specPromptTokens tkm (withMessageName initialFixedCost 4 (-1)) msgs
  = specPromptTokens tkm (withMessageName initialFixedCost 3 1) msgs
    + Z.of_nat (List.length msgs) - 2 * Z.of_nat (namedMessages msgs).
Proof.
  unfold namedMessages.
  induction msgs as [| msg rest IH];
    cbn [specPromptTokens List.length filter]; [reflexivity |].
  rewrite IH. unfold specMessageTokens.
  cbn [message name withMessageName].
  destruct (String.eqb (Name msg) ""); cbn [negb List.length]; lia.
Qed.

(** The names of the switch all contain one of the two family names. *)
Lemma isCase_family model :
  isCase model case0613 = true \/ isCase model case0301 = true ->
  Contains model "gpt-3.5-turbo" = true \/ Contains model "gpt-4" = true.
Proof.
  unfold isCase, case0613, case0301. cbn [existsb].
  rewrite !orb_true_iff, !String.eqb_eq.
  intros [[-> | [-> | [-> | [-> | [-> | [-> | H]]]]]] | [-> | H]];
    try discriminate; cbn; auto.
Qed.

(** X4.  A name changes the count by its own tokens plus the fixed cost of a
    name: for every model that resolves, giving a message without a name a
    non-empty name changes the count by
    count name - count "" + fixedCost.name, on [int]. *)
Theorem name_delta fuel model tk0 resolved fixedCost tkm (from from' : Request)
    before msg after nm :
  EncodingForModel model = inl tk0 ->
  specResolve model = Some (resolved, fixedCost) ->
  EncodingForModel resolved = inl tkm ->
  Name msg = "" ->
  nm <> "" ->
  toTokenRequest (Some from)
  = inl {| Messages := (before ++ msg :: after)%list |} ->
  toTokenRequest (Some from')
  = inl {| Messages :=
             (before
                ++ {| Name := nm; Role := Role msg; Content := Content msg |}
                :: after)%list |} ->
  exists n n',
    countPromptTokens (S (S fuel)) model (Some from) = Some (n, None)
    /\ countPromptTokens (S (S fuel)) model (Some from') = Some (n', None)
    /\ n' = Int.add n (count tkm nm - count tkm "" + name fixedCost).
Proof.
  intros Henc0 Hres Henc Hname Hnm Hreq Hreq'.
  assert (Hneq : String.eqb nm "" = false) by (apply String.eqb_neq; exact Hnm).
  eexists. eexists. split; [| split].
  - apply (countPromptTokens_resolved _ _ _ _ _ _ _ _ Henc0 Hres Henc Hreq).
  - apply (countPromptTokens_resolved _ _ _ _ _ _ _ _ Henc0 Hres Henc Hreq').
  - rewrite add_wrapInt_l. f_equal. cbn [Messages].
    rewrite !specPromptTokens_app. cbn [specPromptTokens].
    unfold specMessageTokens. cbn [Name Role Content].
    rewrite Hname, Hneq. cbn [String.eqb]. ring.
Qed.

(** X5.  The legacy profile against the current one: with the same tokenizer
    behind "gpt-3.5-turbo-0301" and "gpt-3.5-turbo-0613", the count under
    the first is the count under the second plus one per message minus two
    per message that carries a name, on [int]. *)
Theorem count_0301_against_0613 fuel tkm (from : Request) req :
  EncodingForModel "gpt-3.5-turbo-0301" = inl tkm ->
  EncodingForModel "gpt-3.5-turbo-0613" = inl tkm ->
  toTokenRequest (Some from) = inl req ->
  exists n0301 n0613,
    countPromptTokens (S fuel) "gpt-3.5-turbo-0301" (Some from)
    = Some (n0301, None)
    /\ countPromptTokens (S fuel) "gpt-3.5-turbo-0613" (Some from)
       = Some (n0613, None)
    /\ n0301
       = Int.add n0613
           (Z.of_nat (List.length (Messages req))
            - 2 * Z.of_nat (namedMessages (Messages req))).
Proof.
  intros H0301 H0613 Hreq.
  eexists. eexists. split; [| split].
  - rewrite (countPromptTokens_case0301 _ _ _ tkm) by (assumption || reflexivity).
    unfold specAfterSwitch. rewrite Hreq. reflexivity.
  - rewrite (countPromptTokens_case0613 _ _ _ tkm) by (assumption || reflexivity).
    unfold specAfterSwitch. rewrite Hreq. reflexivity.
  - rewrite add_wrapInt_l. f_equal.
    rewrite specPromptTokens_profiles. ring.
Qed.

(** X6.  Apart from "gpt-3.5-turbo-0301" the model name matters only through
    its tokenizer: two model names that resolve, have a tokenizer, and
    resolve to names with the same tokenizer get the same result. *)
Theorem count_same_for_current_models fuel model1 model2 (from : Request)
    tk1 tk2 resolved1 resolved2 fixedCost1 fixedCost2 tkm :
  model1 <> "gpt-3.5-turbo-0301" ->
  model2 <> "gpt-3.5-turbo-0301" ->
  EncodingForModel model1 = inl tk1 ->
  EncodingForModel model2 = inl tk2 ->
  specResolve model1 = Some (resolved1, fixedCost1) ->
  specResolve model2 = Some (resolved2, fixedCost2) ->
  EncodingForModel resolved1 = inl tkm ->
  EncodingForModel resolved2 = inl tkm ->
  countPromptTokens (S (S fuel)) model1 (Some from)
  = countPromptTokens (S (S fuel)) model2 (Some from).
Proof.
  intros Hneq1 Hneq2 Henc1 Henc2 Hres1 Hres2 Hsame1 Hsame2.
  rewrite !countPromptTokens_specEstimate. f_equal. unfold specEstimate.
  rewrite Henc1, Henc2, Hres1, Hres2, Hsame1, Hsame2.
  rewrite (specResolve_not_0301 _ _ _ Hres1 Hneq1).
  rewrite (specResolve_not_0301 _ _ _ Hres2 Hneq2).
  reflexivity.
Qed.

(** X7.  The unknown-model error is returned exactly when a tokenizer is
    acquired for the model name and the name contains neither
    "gpt-3.5-turbo" nor "gpt-4": every name of the switch contains one of
    the two, so the substring tests alone decide. *)
Theorem unknown_model_iff fuel model (from : Request) :
  (exists n e,
      countPromptTokens (S (S fuel)) model (Some from) = Some (n, Some e)
      /\ kindOf e = Some UnsupportedModel)
  <-> (exists tk0, EncodingForModel model = inl tk0)
      /\ Contains model "gpt-3.5-turbo" = false
      /\ Contains model "gpt-4" = false.
Proof.
  rewrite countPromptTokens_specEstimate. unfold specEstimate. split.
  - intros (n & e & Hret & Hkind).
    destruct (EncodingForModel model) as [tk0 | err0].
    2: { inversion Hret; subst. discriminate. }
    split; [exists tk0; reflexivity |].
    destruct (specResolve_cases model)
      as [[_ H] | [(_ & _ & H) | [(_ & _ & _ & H)
         | [(_ & _ & _ & _ & H) | (_ & _ & H35 & H4 & _)]]]];
      [| | | | split; assumption];
      rewrite H in Hret;
      match type of Hret with
      | context [EncodingForModel ?r] =>
          destruct (EncodingForModel r) as [tkm | err1]
      end;
      try (inversion Hret; subst; discriminate);
      unfold specAfterSwitch in Hret;
      destruct (toTokenRequest (Some from)) as [req | err2];
      inversion Hret; subst; discriminate.
  - intros ([tk0 Henc0] & H35 & H4). rewrite Henc0.
    assert (Hres : specResolve model = None).
    { destruct (specResolve_cases model)
        as [[Hc _] | [(_ & Hc & _) | [(_ & _ & Hc & _)
           | [(_ & _ & _ & Hc & _) | (_ & _ & _ & _ & H)]]]];
        try congruence.
      - destruct (isCase_family model (or_introl Hc)); congruence.
      - destruct (isCase_family model (or_intror Hc)); congruence. }
    rewrite Hres. exists 0, (ErrUnknownModel model). split; reflexivity.
Qed.

(** X8.  The conversion error is returned exactly when a tokenizer is
    acquired for the model name, the name resolves, a tokenizer is acquired
    for the resolved name, and normalisation fails; the error wraps the
    error of [toTokenRequest] and the count is 0.  A request that does not
    normalise is thus reported only after the model has been accepted. *)
Theorem conversion_error_iff fuel model (from : Request) n cause :
  countPromptTokens (S (S fuel)) model (Some from)
  = Some (n, Some (ErrConvert cause))
  <-> (exists tk0 resolved fixedCost tkm,
          EncodingForModel model = inl tk0
          /\ specResolve model = Some (resolved, fixedCost)
          /\ EncodingForModel resolved = inl tkm)
      /\ toTokenRequest (Some from) = inr cause
      /\ n = 0.
Proof.
  rewrite countPromptTokens_specEstimate. unfold specEstimate. split.
  - destruct (EncodingForModel model) as [tk0 | err0]; [| discriminate].
    destruct (specResolve model) as [[resolved fixedCost] |]; [| discriminate].
    destruct (EncodingForModel resolved) as [tkm | err1] eqn:Henc;
      [| discriminate].
    unfold specAfterSwitch.
    destruct (toTokenRequest (Some from)) as [req | err2]; [discriminate |].
    intros Hret. inversion Hret; subst.
    split; [| split; reflexivity].
    exists tk0, resolved, fixedCost, tkm. repeat split; assumption.
  - intros ((tk0 & resolved & fixedCost & tkm & Henc0 & Hres & Henc) & Hreq & ->).
    rewrite Henc0, Hres, Henc. unfold specAfterSwitch. rewrite Hreq.
    reflexivity.
Qed.

(** X9.  The message of a model error names the model: the unknown-model
    error contains the model name as given, and the tokenizer error contains
    the name the tokenizer was asked for, which is the name as given or the
    name it resolves to. *)
Theorem error_message_names_model fuel model (from : Request) n e :
  countPromptTokens (S (S fuel)) model (Some from) = Some (n, Some e) ->
  (kindOf e = Some UnsupportedModel -> Contains (Error e) model = true)
  /\ (kindOf e = Some TokenizerUnavailable ->
      Contains (Error e) model = true
      \/ exists resolved fixedCost,
           specResolve model = Some (resolved, fixedCost)
           /\ Contains (Error e) resolved = true).
Proof.
  rewrite countPromptTokens_specEstimate. unfold specEstimate.
  destruct (EncodingForModel model) as [tk0 | err0].
  2: { intros Hret. inversion Hret; subst. split; [discriminate |].
       intros _. left. apply Contains_spec.
       exists "failed to get encoding for model ", (": " ++ Error err0).
       reflexivity. }
  destruct (specResolve model) as [[resolved fixedCost] |] eqn:Hres.
  2: { intros Hret. inversion Hret; subst. split; [| discriminate].
       intros _. apply Contains_spec.
       exists "token counting method for model ", " is unknown".
       reflexivity. }
  destruct (EncodingForModel resolved) as [tkm | err1].
  2: { intros Hret. inversion Hret; subst. split; [discriminate |].
       intros _. right. exists resolved, fixedCost. split; [reflexivity |].
       apply Contains_spec.
       exists "failed to get encoding for model ", (": " ++ Error err1).
       reflexivity. }
  unfold specAfterSwitch.
  destruct (toTokenRequest (Some from)) as [req | err2];
    intros Hret; inversion Hret; subst; split; discriminate.
Qed.

End Profiles.

(* ================================================================= *)
(** ** What normalisation reads and what it rejects *)

Lemma unmarshalMembers_succeeds {T : Type} field typed
    (members : list (string * Value)) :
  (forall key v (dst : T), succeeds (field key v dst) = typed (key, v)) ->
  forall dst,
    succeeds (unmarshalMembers field members dst) = forallb typed members.
Proof.
  intros Hfield.
  induction members as [| [key v] rest IH]; intros dst;
    cbn [unmarshalMembers forallb]; [reflexivity |].
  rewrite <- (Hfield key v dst).
  destruct (field key v dst) as [dst' | err]; cbn [bind succeeds andb];
    [apply IH | reflexivity].
Qed.

Lemma tokenMessageField_succeeds key v msg :
  succeeds (tokenMessageField key v msg) = memberTyped (key, v).
Proof.
  unfold tokenMessageField, memberTyped, selectsMessageField. cbn [fst snd].
  destruct (keyMatches key "name"), (keyMatches key "role"),
    (keyMatches key "content"), v; reflexivity.
Qed.

Lemma unmarshalTokenMessage_succeeds v old :
  succeeds (unmarshalTokenMessage v old) = messageTyped v.
Proof.
  destruct v; try reflexivity. cbn [unmarshalTokenMessage messageTyped].
  apply unmarshalMembers_succeeds. apply tokenMessageField_succeeds.
Qed.

Lemma unmarshalElems_succeeds elems :
  succeeds (unmarshalElems elems) = forallb messageTyped elems.
Proof.
  induction elems as [| v rest IH]; cbn [unmarshalElems forallb];
    [reflexivity |].
  rewrite <- (unmarshalTokenMessage_succeeds v zeroTokenMessage), <- IH.
  destruct (unmarshalTokenMessage v zeroTokenMessage); cbn [bind succeeds andb];
    [| reflexivity].
  destruct (unmarshalElems rest); reflexivity.
Qed.

Lemma tokenRequestField_succeeds key v to :
  succeeds (tokenRequestField key v to) = requestMemberTyped (key, v).
Proof.
  unfold tokenRequestField, requestMemberTyped. cbn [fst snd].
  destruct (keyMatches key "messages"); [| reflexivity].
  destruct v; try reflexivity.
  cbn [unmarshalTokenMessages messagesTyped].
  rewrite <- unmarshalElems_succeeds.
  destruct (unmarshalElems elems); reflexivity.
Qed.

Lemma Unmarshal_succeeds v : succeeds (Unmarshal v) = requestTyped v.
Proof.
  destruct v; try reflexivity. cbn [Unmarshal requestTyped].
  apply unmarshalMembers_succeeds. apply tokenRequestField_succeeds.
Qed.

Lemma toTokenRequest_raw (v : RawMessage) :
  toTokenRequest (Some v) = Unmarshal v.
Proof.
  unfold toTokenRequest, Marshal, rawMarshaler.
  destruct (Unmarshal v); reflexivity.
Qed.

(** Members that select no field of the message change nothing. *)
Lemma unmarshalTokenMessage_prune v old :
  unmarshalTokenMessage (pruneMessage v) old = unmarshalTokenMessage v old.
Proof.
  destruct v; try reflexivity. cbn [pruneMessage unmarshalTokenMessage].
  revert old. induction members as [| [key w] rest IH]; intros old;
    cbn [filter fst]; [reflexivity |].
  destruct (selectsMessageField key) eqn:Hsel; cbn [unmarshalMembers].
  - destruct (tokenMessageField key w old); cbn [bind]; [apply IH | reflexivity].
  - unfold selectsMessageField in Hsel.
    apply orb_false_iff in Hsel as [Hsel Hcontent].
    apply orb_false_iff in Hsel as [Hname Hrole].
    unfold tokenMessageField at 2. rewrite Hname, Hrole, Hcontent.
    cbn [bind]. apply IH.
Qed.

Lemma unmarshalElems_prune elems :
  unmarshalElems (map pruneMessage elems) = unmarshalElems elems.
Proof.
  induction elems as [| v rest IH]; cbn [map unmarshalElems]; [reflexivity |].
  rewrite unmarshalTokenMessage_prune, IH. reflexivity.
Qed.

Lemma Unmarshal_prune v : Unmarshal (pruneRequest v) = Unmarshal v.
Proof.
  destruct v; try reflexivity. cbn [pruneRequest Unmarshal].
  generalize zeroTokenRequest.
  induction members as [| [key w] rest IH]; intros to;
    cbn [filter map fst snd]; [reflexivity |].
  destruct (keyMatches key "messages") eqn:Hkey;
    cbn [map fst snd unmarshalMembers].
  - assert (Hfield : tokenRequestField key (pruneMessages w) to
                     = tokenRequestField key w to).
    { unfold tokenRequestField. rewrite Hkey.
      destruct w; try reflexivity.
      cbn [pruneMessages unmarshalTokenMessages].
      rewrite unmarshalElems_prune. reflexivity. }
    rewrite Hfield.
    destruct (tokenRequestField key w to); cbn [bind]; [apply IH | reflexivity].
  - unfold tokenRequestField at 2. rewrite Hkey. cbn [bind]. apply IH.
Qed.

Lemma unmarshalElems_first_error pre : forall msgs v err post,
  unmarshalElems pre = inl msgs ->
  unmarshalTokenMessage v zeroTokenMessage = inr err ->
  unmarshalElems (pre ++ v :: post) = inr err.
Proof.
  induction pre as [| w rest IH]; intros msgs v err post Hpre Hv;
    cbn [app unmarshalElems].
  - rewrite Hv. reflexivity.
  - cbn [unmarshalElems] in Hpre.
    destruct (unmarshalTokenMessage w zeroTokenMessage) as [msg | e];
      cbn [bind] in *; [| discriminate].
    destruct (unmarshalElems rest) as [msgs' | e] eqn:Hrest;
      cbn [bind] in Hpre; [| discriminate].
    rewrite (IH msgs' v err post eq_refl Hv). reflexivity.
Qed.

Lemma unmarshalMembers_givesNoMessages members :
  forallb givesNoMessages members = true ->
  unmarshalMembers tokenRequestField members zeroTokenRequest
  = inl zeroTokenRequest.
Proof.
  induction members as [| [key v] rest IH]; cbn [forallb unmarshalMembers];
    [reflexivity |].
  intros Hnone. apply andb_true_iff in Hnone as [Hmember Hrest].
  unfold givesNoMessages in Hmember. cbn [fst snd] in Hmember.
  assert (Hfield : tokenRequestField key v zeroTokenRequest
                   = inl zeroTokenRequest).
  { unfold tokenRequestField.
    destruct (keyMatches key "messages"); [| reflexivity].
    destruct v; try discriminate. reflexivity. }
  rewrite Hfield. cbn [bind]. apply IH. exact Hrest.
Qed.

Section Documents.

Context {lib : TiktokenLib}.

(** X10.  Normalisation reads nothing but the messages member and, inside a
    message, the name, role and content members: cutting every other member
    out of a JSON request changes neither the normalised request nor the
    result of [countPromptTokens]. *)
Theorem unread_members_do_not_count (v : RawMessage) :
  toTokenRequest (Some (pruneRequest v : RawMessage)) = toTokenRequest (Some v)
  /\ (forall fuel model,
        countPromptTokens fuel model (Some (pruneRequest v : RawMessage))
        = countPromptTokens fuel model (Some v)).
Proof.
  assert (Hnorm : toTokenRequest (Some (pruneRequest v : RawMessage))
                  = toTokenRequest (Some v)).
  { rewrite !toTokenRequest_raw. apply Unmarshal_prune. }
  split; [exact Hnorm |].
  intros fuel model. apply countPromptTokens_normal_form. exact Hnorm.
Qed.

(** X11.  Normalisation reports the first message it cannot read and keeps
    nothing of the others: when the messages before it are read and it is
    not, the error of that message is returned whatever follows it, in the
    array and in the document, and [countPromptTokens] wraps that error next
    to a zero count. *)
Theorem first_unreadable_message fuel model tk0 resolved fixedCost tkm
    (before after : list (string * Value)) key pre msgs v err post :
  EncodingForModel model = inl tk0 ->
  specResolve model = Some (resolved, fixedCost) ->
  EncodingForModel resolved = inl tkm ->
  forallb (fun member => negb (keyMatches (fst member) "messages")) before
  = true ->
  keyMatches key "messages" = true ->
  unmarshalElems pre = inl msgs ->
  unmarshalTokenMessage v zeroTokenMessage = inr err ->
  toTokenRequest
    (Some (Object (before ++ (key, Array (pre ++ v :: post)) :: after)
           : RawMessage))
  = inr err
  /\ countPromptTokens (S (S fuel)) model
       (Some (Object (before ++ (key, Array (pre ++ v :: post)) :: after)
              : RawMessage))
     = Some (0, Some (ErrConvert err)).
Proof.
  intros Henc0 Hres Henc Hbefore Hkey Hpre Hv.
  assert (Hnorm : toTokenRequest
                    (Some (Object (before
                                     ++ (key, Array (pre ++ v :: post))
                                     :: after) : RawMessage))
                  = inr err).
  { rewrite toTokenRequest_raw. cbn [Unmarshal].
    rewrite unmarshalMembers_app, (unmarshalMembers_skip _ _ Hbefore).
    cbn [bind unmarshalMembers]. unfold tokenRequestField at 1.
    rewrite Hkey. cbn [unmarshalTokenMessages].
    rewrite (unmarshalElems_first_error _ _ _ _ post Hpre Hv). reflexivity. }
  split; [exact Hnorm |].
  rewrite countPromptTokens_specEstimate. unfold specEstimate.
  rewrite Henc0, Hres, Henc. unfold specAfterSwitch. rewrite Hnorm.
  reflexivity.
Qed.

(** X12.  Normalisation of a JSON request succeeds exactly when the document
    has the shape of [tokenRequest]: it is [null] or an object in which every
    member selecting messages is [null] or an array of messages, a message
    being [null] or an object in which every member selecting name, role or
    content is [null] or a string.  For a model that resolves and has its
    tokenizers, [countPromptTokens] returns the conversion error exactly for
    the documents of another shape. *)
Theorem normalisation_succeeds_iff (v : RawMessage) :
  ((exists req, toTokenRequest (Some v) = inl req) <-> requestTyped v = true)
  /\ (forall fuel model tk0 resolved fixedCost tkm,
        EncodingForModel model = inl tk0 ->
        specResolve model = Some (resolved, fixedCost) ->
        EncodingForModel resolved = inl tkm ->
        ((exists cause,
             countPromptTokens (S (S fuel)) model (Some v)
             = Some (0, Some (ErrConvert cause)))
         <-> requestTyped v = false)).
Proof.
  pose proof (Unmarshal_succeeds v) as Hshape.
  rewrite <- toTokenRequest_raw in Hshape.
  split.
  - rewrite <- Hshape.
    destruct (toTokenRequest (Some v)) as [req | err]; cbn [succeeds].
    + split; [reflexivity | intros _; exists req; reflexivity].
    + split; [intros [req Hreq]; discriminate | discriminate].
  - intros fuel model tk0 resolved fixedCost tkm Henc0 Hres Henc.
    rewrite countPromptTokens_specEstimate. unfold specEstimate.
    rewrite Henc0, Hres, Henc. unfold specAfterSwitch.
    rewrite <- Hshape.
    destruct (toTokenRequest (Some v)) as [req | err]; cbn [succeeds].
    + split; [intros [cause Hret]; discriminate | discriminate].
    + split; [reflexivity | intros _; exists err; reflexivity].
Qed.

(** X13.  A JSON request that gives no messages counts zero tokens: when the
    document is an object none of whose members gives the messages field a
    value other than [null] (in particular when the member is missing), it
    normalises to the empty request, and for a model that resolves and has
    its tokenizers the count is 0 with no error. *)
Theorem no_messages_count_zero fuel model tk0 resolved fixedCost tkm
    (members : list (string * Value)) :
  EncodingForModel model = inl tk0 ->
  specResolve model = Some (resolved, fixedCost) ->
  EncodingForModel resolved = inl tkm ->
  forallb givesNoMessages members = true ->
  toTokenRequest (Some (Object members : RawMessage)) = inl zeroTokenRequest
  /\ countPromptTokens (S (S fuel)) model (Some (Object members : RawMessage))
     = Some (0, None).
Proof.
  intros Henc0 Hres Henc Hnone.
  assert (Hnorm : toTokenRequest (Some (Object members : RawMessage))
                  = inl zeroTokenRequest).
  { rewrite toTokenRequest_raw. cbn [Unmarshal].
    apply unmarshalMembers_givesNoMessages. exact Hnone. }
  split; [exact Hnorm |].
  rewrite (countPromptTokens_resolved _ _ _ _ _ _ _ _ Henc0 Hres Henc Hnorm).
  reflexivity.
Qed.

End Documents.

(* ================================================================= *)
(** ** The further properties at concrete inputs *)

Lemma count_of_concatenation_witness :
  countPromptTokens (lib := ByteTokenizer.lib) 2 "gpt-4"
    (Some helloThenBobRequest)
  = Some (12 + 16, None).
Proof.
  exact (count_of_concatenation (lib := ByteTokenizer.lib) 0 "gpt-4"
           helloRequest helloBobRequest helloThenBobRequest
           [projectMessage helloMessage] [projectMessage bobMessage] 12 16
           eq_refl eq_refl eq_refl eq_refl eq_refl).
Defined.

Lemma count_of_permutation_witness :
  countPromptTokens (lib := ByteTokenizer.lib) 2 "gpt-3.5-turbo-0301"
    (Some helloThenBobRequest)
  = countPromptTokens (lib := ByteTokenizer.lib) 2 "gpt-3.5-turbo-0301"
      (Some bobThenHelloRequest).
Proof.
  exact (count_of_permutation (lib := ByteTokenizer.lib) 0
           "gpt-3.5-turbo-0301" helloThenBobRequest bobThenHelloRequest
           {| Messages := [projectMessage helloMessage;
                           projectMessage bobMessage] |}
           {| Messages := [projectMessage bobMessage;
                           projectMessage helloMessage] |}
           eq_refl eq_refl
           (perm_swap (projectMessage bobMessage) (projectMessage helloMessage)
                      [])).
Defined.

Lemma count_grows_with_messages_witness :
  exists n1 n12,
    countPromptTokens (lib := ByteTokenizer.lib) 2 "gpt-4" (Some helloRequest)
    = Some (n1, None)
    /\ countPromptTokens (lib := ByteTokenizer.lib) 2 "gpt-4"
         (Some helloThenBobRequest) = Some (n12, None)
    /\ n1 + 3 * 1 <= n12.
Proof.
  refine (count_grows_with_messages (lib := ByteTokenizer.lib) 0 "gpt-4"
            helloRequest helloThenBobRequest tt "gpt-4-0613"
            (withMessageName initialFixedCost 3 1) tt
            [projectMessage helloMessage] [projectMessage bobMessage]
            eq_refl eq_refl eq_refl eq_refl eq_refl _).
  vm_compute. split; discriminate.
Defined.

Lemma name_delta_witness :
  exists n n',
    countPromptTokens (lib := ByteTokenizer.lib) 2 "gpt-4" (Some helloRequest)
    = Some (n, None)
    /\ countPromptTokens (lib := ByteTokenizer.lib) 2 "gpt-4"
         (Some helloBobRequest) = Some (n', None)
    /\ n' = Int.add n (3 - 0 + 1).
Proof.
  refine (name_delta (lib := ByteTokenizer.lib) 0 "gpt-4" tt "gpt-4-0613"
            (withMessageName initialFixedCost 3 1) tt
            helloRequest helloBobRequest [] (projectMessage helloMessage) []
            "bob" eq_refl eq_refl eq_refl eq_refl _ eq_refl eq_refl).
  discriminate.
Defined.

Lemma count_0301_against_0613_witness :
  exists n0301 n0613,
    countPromptTokens (lib := ByteTokenizer.lib) 1 "gpt-3.5-turbo-0301"
      (Some helloThenBobRequest) = Some (n0301, None)
    /\ countPromptTokens (lib := ByteTokenizer.lib) 1 "gpt-3.5-turbo-0613"
         (Some helloThenBobRequest) = Some (n0613, None)
    /\ n0301 = Int.add n0613 (2 - 2 * 1).
Proof.
  exact (count_0301_against_0613 (lib := ByteTokenizer.lib) 0 tt
           helloThenBobRequest
           {| Messages := [projectMessage helloMessage;
                           projectMessage bobMessage] |}
           eq_refl eq_refl eq_refl).
Defined.

Lemma count_same_for_current_models_witness :
  countPromptTokens (lib := ByteTokenizer.lib) 2 "gpt-4" (Some helloBobRequest)
  = countPromptTokens (lib := ByteTokenizer.lib) 2 "gpt-3.5-turbo-16k"
      (Some helloBobRequest).
Proof.
  refine (count_same_for_current_models (lib := ByteTokenizer.lib) 0
            "gpt-4" "gpt-3.5-turbo-16k" helloBobRequest tt tt
            "gpt-4-0613" "gpt-3.5-turbo-0613"
            (withMessageName initialFixedCost 3 1)
            (withMessageName initialFixedCost 3 1) tt
            _ _ eq_refl eq_refl eq_refl eq_refl eq_refl eq_refl);
    discriminate.
Defined.

Lemma unknown_model_iff_witness :
  exists n e,
    countPromptTokens (lib := ByteTokenizer.lib) 2 "text-davinci-003"
      (Some helloRequest) = Some (n, Some e)
    /\ kindOf e = Some UnsupportedModel.
Proof.
  apply (proj2 (unknown_model_iff (lib := ByteTokenizer.lib) 0
                  "text-davinci-003" helloRequest)).
  split; [exists tt; reflexivity | split; reflexivity].
Defined.

Lemma conversion_error_iff_witness :
  countPromptTokens (lib := ByteTokenizer.lib) 2 "gpt-4" (Some numericContent)
  = Some (0, Some (ErrConvert (UnmarshalTypeError (Number "1") "string"))).
Proof.
  apply (proj2 (conversion_error_iff (lib := ByteTokenizer.lib) 0 "gpt-4"
                  numericContent 0
                  (UnmarshalTypeError (Number "1") "string"))).
  split; [| split; reflexivity].
  exists tt, "gpt-4-0613", (withMessageName initialFixedCost 3 1), tt.
  repeat split.
Defined.

Lemma error_message_names_model_witness :
  Contains
    (Error (ErrEncoding "totally-unknown-model"
              (ErrLibrary "no encoding for model totally-unknown-model")))
    "totally-unknown-model" = true
  \/ exists resolved fixedCost,
       specResolve "totally-unknown-model" = Some (resolved, fixedCost)
       /\ Contains
            (Error (ErrEncoding "totally-unknown-model"
                      (ErrLibrary
                         "no encoding for model totally-unknown-model")))
            resolved = true.
Proof.
  exact (proj2 (error_message_names_model (lib := ByteTokenizer.lib) 0
                  "totally-unknown-model" helloRequest 0
                  (ErrEncoding "totally-unknown-model"
                     (ErrLibrary "no encoding for model totally-unknown-model"))
                  eq_refl) eq_refl).
Defined.

Lemma unread_members_do_not_count_witness :
  countPromptTokens (lib := ByteTokenizer.lib) 2 "gpt-4"
    (Some helloDocumentBare)
  = countPromptTokens (lib := ByteTokenizer.lib) 2 "gpt-4"
      (Some helloDocument).
Proof.
  exact (proj2 (unread_members_do_not_count (lib := ByteTokenizer.lib)
                  helloDocument) 2%nat "gpt-4").
Defined.

Lemma first_unreadable_message_witness :
  toTokenRequest (Some badNameDocument)
  = inr (UnmarshalTypeError (Bool true) "string")
  /\ countPromptTokens (lib := ByteTokenizer.lib) 2 "gpt-4"
       (Some badNameDocument)
     = Some (0, Some (ErrConvert (UnmarshalTypeError (Bool true) "string"))).
Proof.
  exact (first_unreadable_message (lib := ByteTokenizer.lib) 0 "gpt-4" tt
           "gpt-4-0613" (withMessageName initialFixedCost 3 1) tt
           [] [] "messages"
           [Object [("role", Str "user"); ("content", Str "hello")]]
           [ {| Name := ""; Role := "user"; Content := "hello" |} ]
           (Object [("role", Str "user"); ("name", Bool true)])
           (UnmarshalTypeError (Bool true) "string")
           [Object [("content", Number "3")]]
           eq_refl eq_refl eq_refl eq_refl eq_refl eq_refl eq_refl).
Defined.

Lemma normalisation_succeeds_iff_witness :
  (exists req, toTokenRequest (Some helloDocument) = inl req)
  /\ exists cause,
       countPromptTokens (lib := ByteTokenizer.lib) 2 "gpt-4"
         (Some badNameDocument)
       = Some (0, Some (ErrConvert cause)).
Proof.
  split.
  - exact (proj2 (proj1 (normalisation_succeeds_iff
                           (lib := ByteTokenizer.lib) helloDocument))
                 eq_refl).
  - exact (proj2 (proj2 (normalisation_succeeds_iff
                           (lib := ByteTokenizer.lib) badNameDocument)
                        0%nat "gpt-4" tt "gpt-4-0613"
                        (withMessageName initialFixedCost 3 1) tt
                        eq_refl eq_refl eq_refl)
                 eq_refl).
Defined.

Lemma no_messages_count_zero_witness :
  toTokenRequest (Some noMessagesDocument) = inl zeroTokenRequest
  /\ countPromptTokens (lib := ByteTokenizer.lib) 2 "gpt-3.5-turbo-0301"
       (Some noMessagesDocument)
     = Some (0, None).
Proof.
  exact (no_messages_count_zero (lib := ByteTokenizer.lib) 0
           "gpt-3.5-turbo-0301" tt "gpt-3.5-turbo-0301"
           (withMessageName initialFixedCost 4 (-1)) tt
           [("model", Str "gpt-4"); ("temperature", Number "0.5")]
           eq_refl eq_refl eq_refl eq_refl).
Defined.
